(** * Woloo After School Hub backend: request handlers of [server.js]

    A shallow embedding of the route handlers of [server.js]
    ([GET /lessons], [GET /search], [POST /orders], [PUT /lessons/:id],
    [GET /health/db], [GET /images/:fileName]) and of the seeding script over
    an explicit model of the two MongoDB collections, followed by the
    properties of the handlers.

    Modelling conventions.
    - A JavaScript string is a [string]: a sequence of 8-bit character codes
      (the ASCII / Latin-1 range).  Case folding is the ASCII one.
    - A JavaScript number is a [JsNumber]: NaN, an infinity, or a finite
      value written as an exact decimal [m * 10^e].  [Number(s)] rounds the
      value that [s] spells to the nearest double ([Number.round64]); the
      numbers of a request body and of a stored document are the doubles
      that [JSON.parse] and the seeding script made.
    - A request body is the JSON object that [express.json()] leaves in
      [req.body] (an array body has none of the properties the handlers read,
      so it behaves as the empty object).
    - A stored document is a finite map from field names to values; a
      collection is the list of its documents in store order.  A query
      clause on a field holds for the field's value and, when the field is
      an array, for each of its elements.
    - A regular expression is modelled when it denotes a literal string,
      which is all the search handler builds; [new RegExp] on any other
      pattern is a [Throw].
    - An exception thrown inside a handler's [try] block is a [Throw] of the
      error monad [Exc]; the handler's [catch] turns it into its 500 response.
    - A call to the driver either reaches the store or is rejected ([Link]).
      The update handler is modelled for both ([put_lessons_id_with]);
      [put_lessons_id] is the handler on a store that answers, and the other
      handlers are modelled on a store that answers. *)

From Stdlib Require Import ZArith NArith Ascii String Bool Lia.
From stdpp Require Import base option list strings pretty gmap fin_maps.

(** ** Characters and strings *)

Module JsString.

Definition code (c : ascii) : N := N_of_ascii c.

Definition between (lo hi : N) (c : ascii) : bool :=
  ((lo <=? code c) && (code c <=? hi))%N.

(** [0-9], the class [\d]. *)
Definition isDigit (c : ascii) : bool := between 48 57 c.
Definition isUpper (c : ascii) : bool := between 65 90 c.
Definition isLower (c : ascii) : bool := between 97 122 c.
(** [A-Za-z]. *)
Definition isLetter (c : ascii) : bool := isUpper c || isLower c.
(** [0-9a-fA-F]. *)
Definition isHexDigit (c : ascii) : bool :=
  isDigit c || between 65 70 c || between 97 102 c.

(** White space and line terminators: what [String.prototype.trim] strips,
    what the class [\s] matches and what [Number] skips.  Codes: TAB, LF,
    VT, FF, CR, SPACE, NBSP. *)
Definition isWhiteSpace (c : ascii) : bool :=
  match code c with
  | 9 | 10 | 11 | 12 | 13 | 32 | 160 => true
  | _ => false
  end%N.

Definition toLower (c : ascii) : ascii :=
  if isUpper c then ascii_of_N (code c + 32) else c.

Fixpoint all (p : ascii -> bool) (s : string) : bool :=
  match s with
  | EmptyString => true
  | String c r => p c && all p r
  end.

Definition isEmpty (s : string) : bool :=
  match s with EmptyString => true | String _ _ => false end.

Fixpoint trimStart (s : string) : string :=
  match s with
  | EmptyString => EmptyString
  | String c r => if isWhiteSpace c then trimStart r else s
  end.

Fixpoint trimEnd (s : string) : string :=
  match s with
  | EmptyString => EmptyString
  | String c r =>
      let r' := trimEnd r in
      if isWhiteSpace c && isEmpty r' then EmptyString else String c r'
  end.

(** [s.trim()] *)
Definition trim (s : string) : string := trimEnd (trimStart s).

(** [/^[A-Za-z\s]+$/.test(s)] *)
Definition test_letters_spaces (s : string) : bool :=
  negb (isEmpty s) && all (fun c => isLetter c || isWhiteSpace c) s.

(** [/^\d+$/.test(s)] *)
Definition test_digits (s : string) : bool :=
  negb (isEmpty s) && all isDigit s.

Fixpoint join (sep : string) (l : list string) : string :=
  match l with
  | [] => EmptyString
  | [s] => s
  | s :: r => s +:+ sep +:+ join sep r
  end.

Fixpoint repeat0 (n : nat) : string :=
  match n with O => EmptyString | S k => String "0" (repeat0 k) end.

Fixpoint take (n : nat) (s : string) : string :=
  match n, s with
  | S k, String c r => String c (take k r)
  | _, _ => EmptyString
  end.

Fixpoint drop (n : nat) (s : string) : string :=
  match n, s with
  | S k, String _ r => drop k r
  | _, _ => s
  end.

End JsString.

(** ** Numbers *)

(** A JavaScript number: [NaN], [Infinity]/[-Infinity], or the finite value
    [m * 10^e].  Several pairs [(m, e)] denote one value; the operations
    below depend on the value only. *)
Inductive JsNumber : Type :=
| NaN
| Infinity (negative : bool)
| Finite (m e : Z).

Module Number.
Import JsString.
Local Open Scope Z_scope.

Definition pow10 (n : Z) : Z := 10 ^ n.

(** [Number.isNaN(x)] on a number. *)
Definition isNaN (x : JsNumber) : bool :=
  match x with NaN => true | _ => false end.

(** [Number.isInteger(x)] on a number. *)
Definition isInteger (x : JsNumber) : bool :=
  match x with
  | Finite m e => (0 <=? e) || (m mod pow10 (- e) =? 0)
  | _ => false
  end.

(** [x <= 0] *)
Definition leb0 (x : JsNumber) : bool :=
  match x with
  | NaN => false
  | Infinity negative => negative
  | Finite m _ => m <=? 0
  end.

(** ToBoolean on a number: [0] and [NaN] are falsy. *)
Definition truthy (x : JsNumber) : bool :=
  match x with
  | NaN => false
  | Infinity _ => true
  | Finite m _ => negb (m =? 0)
  end.

(** Equality of values, as a query [{field: x}] compares numbers (for the
    store NaN equals NaN). *)
Definition eqb (x y : JsNumber) : bool :=
  match x, y with
  | NaN, NaN => true
  | Infinity a, Infinity b => Bool.eqb a b
  | Finite m1 e1, Finite m2 e2 =>
      let lo := Z.min e1 e2 in
      m1 * pow10 (e1 - lo) =? m2 * pow10 (e2 - lo)
  | _, _ => false
  end.

(** *** [Number(s)]: the StringNumericLiteral grammar

    The literal is read as the exact value it spells, which [ofString] then
    rounds. *)

Fixpoint span (p : ascii -> bool) (s : string) : string * string :=
  match s with
  | EmptyString => (EmptyString, EmptyString)
  | String c r =>
      if p c then let '(a, b) := span p r in (String c a, b)
      else (EmptyString, s)
  end.

Definition digitValue (c : ascii) : Z :=
  let n := Z.of_N (code c) in
  if isDigit c then n - 48
  else if between 97 102 c then n - 87
  else n - 55.

Fixpoint digitsValue_from (base acc : Z) (s : string) : Z :=
  match s with
  | EmptyString => acc
  | String c r => digitsValue_from base (acc * base + digitValue c) r
  end.

Definition digitsValue (base : Z) (s : string) : Z := digitsValue_from base 0 s.

Definition len (s : string) : Z := Z.of_nat (String.length s).

(** An optional sign: is it [-], and what follows. *)
Definition signOf (s : string) : bool * string :=
  match s with
  | String "+" r => (false, r)
  | String "-" r => (true, r)
  | _ => (false, s)
  end.

Definition signed (negative : bool) (z : Z) : Z := if negative then - z else z.

(** StrDecimalLiteral: [[+-]? (Infinity | digits [. digits] | . digits) [e [+-]? digits]],
    read as the value it spells. *)
Definition parseDecimal (s : string) : JsNumber :=
  let '(neg, s1) := signOf s in
  if String.eqb s1 "Infinity" then Infinity neg else
  let '(ip, s2) := span isDigit s1 in
  let '(fp, s3) :=
    match s2 with
    | String "." r => span isDigit r
    | _ => (EmptyString, s2)
    end in
  if isEmpty ip && isEmpty fp then NaN else
  let m := signed neg (digitsValue 10 (ip +:+ fp)) in
  match s3 with
  | EmptyString => Finite m (- len fp)
  | String c r =>
      if Ascii.eqb c "e" || Ascii.eqb c "E" then
        let '(eneg, r1) := signOf r in
        let '(ed, r2) := span isDigit r1 in
        if isEmpty ed || negb (isEmpty r2) then NaN
        else Finite m (signed eneg (digitsValue 10 ed) - len fp)
      else NaN
  end.

(** NonDecimalIntegerLiteral: [0x], [0o], [0b] followed by digits of the base. *)
Definition parseNonDecimal (s : string) : option JsNumber :=
  match s with
  | String "0" (String p r) =>
      let lit (base : Z) (ok : ascii -> bool) :=
        if negb (isEmpty r) && all ok r then Some (Finite (digitsValue base r) 0)
        else Some NaN in
      if Ascii.eqb p "x" || Ascii.eqb p "X" then lit 16 isHexDigit
      else if Ascii.eqb p "o" || Ascii.eqb p "O" then lit 8 (between 48 55)
      else if Ascii.eqb p "b" || Ascii.eqb p "B" then lit 2 (between 48 49)
      else None
  | _ => None
  end.

(** *** The Number value of a mathematical value: rounding to binary64 *)

(** The double nearest to [n / d], for positive [n] and [d], as [(q, p)] with
    value [q * 2^p].  With [2^k <= n / d < 2^(k+1)], the doubles around
    [n / d] are the multiples of [2^p] for [p = k - 52], and of [2^-1074]
    in the subnormal range; [q] is [n / d / 2^p] rounded to an integer, a tie
    going to the even one. *)
Definition nearest (n d : Z) : Z * Z :=
  let a := Z.log2 n in
  let b := Z.log2 d in
  let k := if d * 2 ^ a <=? n * 2 ^ b then a - b else a - b - 1 in
  let p := Z.max (k - 52) (-1074) in
  let num := n * 2 ^ Z.max (- p) 0 in
  let den := d * 2 ^ Z.max p 0 in
  let q := num / den in
  let r := num mod den in
  let q := if (den <? 2 * r) || ((2 * r =? den) && Z.odd q) then q + 1 else q in
  (q, p).

(** The Number value for [x]: [x] itself when its value is a double, else the
    nearest double, an infinity from [2^1024] on. *)
Definition round64 (x : JsNumber) : JsNumber :=
  match x with
  | Finite m e =>
      if m =? 0 then x else
      let n := Z.abs m * pow10 (Z.max e 0) in
      let d := pow10 (Z.max (- e) 0) in
      let '(q, p) := nearest n d in
      let hi := q * 2 ^ Z.max p 0 in
      let lo := 2 ^ Z.max (- p) 0 in
      if 2 ^ 1024 <=? hi then Infinity (m <? 0)
      else if hi * d =? n * lo then x
      else Finite (Z.sgn m * hi * 5 ^ Z.max (- p) 0) (Z.min p 0)
  | _ => x
  end.

(** [Number(s)] for a string [s]. *)
Definition ofString (s : string) : JsNumber :=
  let t := trim s in
  if isEmpty t then Finite 0 0
  else match parseNonDecimal t with
       | Some x => round64 x
       | None => round64 (parseDecimal t)
       end.

(** *** [String(x)]: Number::toString *)

Fixpoint stripZeros (fuel : nat) (m e : Z) : Z * Z :=
  match fuel with
  | O => (m, e)
  | S f => if m mod 10 =? 0 then stripZeros f (m / 10) (e + 1) else (m, e)
  end.

Definition decimal (n : Z) : string := pretty (Z.to_N n).

Definition toStringPos (m e : Z) : string :=
  let '(s, e') := stripZeros (S (Z.to_nat (Z.log2 m))) m e in
  let digits := decimal s in
  let k := len digits in
  let n := k + e' in
  if (k <=? n) && (n <=? 21) then digits +:+ repeat0 (Z.to_nat (n - k))
  else if (0 <? n) && (n <=? 21) then
    take (Z.to_nat n) digits +:+ "." +:+ drop (Z.to_nat n) digits
  else if (-6 <? n) && (n <=? 0) then
    "0." +:+ repeat0 (Z.to_nat (- n)) +:+ digits
  else
    let x := n - 1 in
    let expo := (if 0 <=? x then "e+" else "e-") +:+ decimal (Z.abs x) in
    if k =? 1 then digits +:+ expo
    else take 1 digits +:+ "." +:+ drop 1 digits +:+ expo.

Definition toString (x : JsNumber) : string :=
  match x with
  | NaN => "NaN"
  | Infinity false => "Infinity"
  | Infinity true => "-Infinity"
  | Finite m e =>
      if m =? 0 then "0"
      else if m <? 0 then "-" +:+ toStringPos (- m) e
      else toStringPos m e
  end.

End Number.

(** ** Exceptions *)

Inductive Exception : Type :=
| TypeError      (* property read on [null], failed ToPrimitive *)
| BSONError      (* thrown by the [ObjectId] constructors *)
| SyntaxError    (* thrown by [new RegExp] on a dangling backslash *)
| MongoError     (* a driver call that is rejected *)
| Unmodelled.    (* a regular expression that uses an operator *)

(** The outcome of evaluating an expression inside a [try] block. *)
Inductive Exc (A : Type) : Type :=
| Ok (a : A)
| Throw (e : Exception).
Arguments Ok {A} a.
Arguments Throw {A} e.

#[global] Instance Exc_bind : MBind Exc := fun A B k m =>
  match m with
  | Ok a => k a
  | Throw e => Throw e
  end.

(** [b || m]: the right operand is evaluated only when [b] is false. *)
Definition orElse (b : bool) (m : Exc bool) : Exc bool :=
  if b then Ok true else m.

(** ** JSON values *)

#[warnings="-register-all"]
Inductive Json : Type :=
| JNull
| JBool (b : bool)
| JNum (x : JsNumber)
| JStr (s : string)
| JArr (l : list Json)
| JObj (l : list (string * Json)).

Module Js.
Import JsString.

(** The own property [k] of a parsed JSON object. *)
Fixpoint assoc (k : string) (l : list (string * Json)) : option Json :=
  match l with
  | [] => None
  | (k', v) :: r => if String.eqb k k' then Some v else assoc k r
  end.

(** ToBoolean; [None] is [undefined]. *)
Definition truthy (v : option Json) : bool :=
  match v with
  | None | Some JNull => false
  | Some (JBool b) => b
  | Some (JNum x) => Number.truthy x
  | Some (JStr s) => negb (isEmpty s)
  | Some (JArr _) | Some (JObj _) => true
  end.

(** ToString.  An array joins its elements with a comma, [null] elements
    printing as nothing; a plain object prints as [[object Object]] unless
    it has an own property [toString], which (not being callable) makes
    ToPrimitive throw. *)
Fixpoint ToString (j : Json) : Exc string :=
  match j with
  | JNull => Ok "null"
  | JBool true => Ok "true"
  | JBool false => Ok "false"
  | JNum x => Ok (Number.toString x)
  | JStr s => Ok s
  | JArr l =>
      let element (x : Json) : Exc string :=
        match x with JNull => Ok "" | _ => ToString x end in
      (fix elements (l : list Json) : Exc string :=
         match l with
         | [] => Ok ""
         | [x] => element x
         | x :: r => s ← element x; t ← elements r; Ok (s +:+ "," +:+ t)
         end) l
  | JObj l =>
      match assoc "toString" l with
      | Some _ => Throw TypeError
      | None => Ok "[object Object]"
      end
  end%string.

Definition ToStringU (v : option Json) : Exc string :=
  match v with
  | None => Ok "undefined"%string
  | Some j => ToString j
  end.

(** [it.k] for a property name [k] that no prototype defines (here
    [lessonId] and [quantity]): a [TypeError] on [null], the own property of
    an object, [undefined] on every other value. *)
Definition getProp (it : Json) (k : string) : Exc (option Json) :=
  match it with
  | JNull => Throw TypeError
  | JObj l => Ok (assoc k l)
  | _ => Ok None
  end.

(** [Number.isInteger(v) && v > 0], that is the negation of
    [!Number.isInteger(v) || v <= 0]. *)
Definition isPositiveInteger (v : option Json) : bool :=
  match v with
  | Some (JNum x) => Number.isInteger x && negb (Number.leb0 x)
  | _ => false
  end.

End Js.

(** ** Store identifiers *)

(** An [ObjectId] is 12 bytes, here the number they spell in base 256. *)
Definition ObjectId : Type := N.

Module ObjectId.
Import JsString.

Definition isHex24 (s : string) : bool :=
  (String.length s =? 24)%nat && all isHexDigit s.

Definition ofHex (s : string) : ObjectId := Z.to_N (Number.digitsValue 16 s).

Fixpoint ofBytes_from (acc : N) (s : string) : N :=
  match s with
  | EmptyString => acc
  | String c r => ofBytes_from (acc * 256 + code c)%N r
  end.

(** [ObjectId.createFromHexString(v)]: an [ObjectId] for a string of 24
    hexadecimal digits; every other argument throws. *)
Definition createFromHexString (v : option Json) : Exc ObjectId :=
  match v with
  | Some (JStr s) => if isHex24 s then Ok (ofHex s) else Throw BSONError
  | _ => Throw BSONError
  end.

(** [new ObjectId(id)] for a string [id], as the driver generations that
    return [{value: ...}] from [findOneAndUpdate] do it: a string of 12
    one-byte characters is taken as the 12 bytes, a string of 24 hexadecimal
    digits is decoded, anything else throws. *)
Definition new (id : string) : Exc ObjectId :=
  if (String.length id =? 12)%nat && all (fun c => (code c <? 128)%N) id
  then Ok (ofBytes_from 0 id)
  else if isHex24 id then Ok (ofHex id)
  else Throw BSONError.

(** [Number.isNaN(o)] for an [ObjectId] [o]: an object is not the number NaN. *)
Definition isNaN (o : ObjectId) : bool := false.

End ObjectId.

(** ** Regular expressions *)

Module RegExp.
Import JsString.

(** The class [[.*+?^${}()|[\]\\]] of the search handler. *)
Definition isSyntaxChar (c : ascii) : bool :=
  match c with
  | "." | "*" | "+" | "?" | "^" | "$" | "{" | "}"
  | "(" | ")" | "|" | "[" | "]" | "\" => true
  | _ => false
  end%char.

(** [q.replace(/[.*+?^${}()|[\]\\]/g, '\\$&')]: a backslash before every
    character of the class. *)
Fixpoint escape (q : string) : string :=
  match q with
  | EmptyString => EmptyString
  | String c r =>
      if isSyntaxChar c then String "\" (String c (escape r))
      else String c (escape r)
  end.

(** The regular expressions of the model: those that denote one literal
    string, with or without the flag [i]. *)
Record t : Type := { literal : string; ignoreCase : bool }.

Definition isAlphaNum (c : ascii) : bool := isLetter c || isDigit c.

(** Reading a pattern: an ordinary character stands for itself, a backslash
    followed by a character that is neither a letter nor a digit stands for
    that character; an unescaped syntax character or a backslash followed by
    a letter or digit is an operator, which the model does not cover. *)
Fixpoint literalOf (pattern : string) : Exc string :=
  match pattern with
  | EmptyString => Ok EmptyString
  | String "\" EmptyString => Throw SyntaxError
  | String "\" (String c r) =>
      if isAlphaNum c then Throw Unmodelled
      else l ← literalOf r; Ok (String c l)
  | String c r =>
      if isSyntaxChar c then Throw Unmodelled
      else l ← literalOf r; Ok (String c l)
  end.

Fixpoint hasFlag (f : ascii) (flags : string) : bool :=
  match flags with
  | EmptyString => false
  | String c r => Ascii.eqb c f || hasFlag f r
  end.

(** [new RegExp(pattern, flags)] *)
Definition new (pattern flags : string) : Exc t :=
  l ← literalOf pattern;
  Ok {| literal := l; ignoreCase := hasFlag "i" flags |}.

Definition fold (ic : bool) (c : ascii) : ascii :=
  if ic then toLower c else c.

(** Does [p] match at the start of [s]? *)
Fixpoint matchHere (ic : bool) (p s : string) : bool :=
  match p, s with
  | EmptyString, _ => true
  | String _ _, EmptyString => false
  | String a p', String b s' =>
      Ascii.eqb (fold ic a) (fold ic b) && matchHere ic p' s'
  end.

(** Does [p] match somewhere in [s]?  (An unanchored search.) *)
Fixpoint search (ic : bool) (p s : string) : bool :=
  matchHere ic p s ||
  match s with
  | EmptyString => false
  | String _ s' => search ic p s'
  end.

Definition test (re : t) (s : string) : bool :=
  search (ignoreCase re) (literal re) s.

End RegExp.

(** ** Documents and the store *)

(** A stored field: a JSON value, an [ObjectId] or a date (milliseconds). *)
Inductive Value : Type :=
| VJson (j : Json)
| VObjectId (o : ObjectId)
| VDate (t : Z).

Abbreviation Doc := (gmap string Value).

(** The two collections, and the state of the driver's identifier generator,
    modelled as a counter: it never issues the same identifier twice. *)
Record Store : Type := {
  lessons : list Doc;
  orders : list Doc;
  nextId : ObjectId
}.

(** The fate of one call to the driver: it reaches the store and is answered,
    or the promise is rejected. *)
Inductive Link : Type :=
| Up
| Down.

Module Mongo.

(** A call whose outcome is [r] when it reaches the store. *)
Definition call {A : Type} (link : Link) (r : A) : Exc A :=
  match link with
  | Up => Ok r
  | Down => Throw MongoError
  end.

(** The clauses the search handler puts under [$or]. *)
Inductive Clause : Type :=
| Regex (field : string) (re : RegExp.t)   (* [{field: {$regex: re}}] *)
| Equals (field : string) (x : JsNumber).  (* [{field: x}] *)

(** Does the value satisfy the test of a clause?  A [$regex] holds for a
    string that matches the expression, an equality with a number for a
    number of the same value. *)
Definition satisfies (c : Clause) (j : Json) : bool :=
  match c, j with
  | Regex _ re, JStr s => RegExp.test re s
  | Equals _ x, JNum y => Number.eqb y x
  | _, _ => false
  end.

Definition fieldOf (c : Clause) : string :=
  match c with Regex f _ | Equals f _ => f end.

(** Does the document satisfy the clause?  The clause holds when the field's
    value satisfies it, and also when the field is an array one of whose
    elements does (the store looks one level into an array). *)
Definition matches (d : Doc) (c : Clause) : bool :=
  match d !! fieldOf c with
  | Some (VJson (JArr l)) => existsb (satisfies c) l
  | Some (VJson j) => satisfies c j
  | _ => false
  end.

(** [coll.find({}).toArray()] *)
Definition find_all (coll : list Doc) : list Doc := coll.

(** [coll.find({$or: clauses}).toArray()] *)
Definition find_or (clauses : list Clause) (coll : list Doc) : list Doc :=
  List.filter (fun d => existsb (matches d) clauses) coll.

(** Does the document's [_id] equal the identifier or string [v]? *)
Definition hasId (v : Value) (d : Doc) : bool :=
  match v, d !! "_id" with
  | VObjectId a, Some (VObjectId b) => N.eqb a b
  | VJson (JStr s), Some (VJson (JStr t)) => String.eqb s t
  | _, _ => false
  end.

(** [coll.findOneAndUpdate({_id: v}, {$set: set}, {returnDocument: 'after'})]:
    the first matching document gets the fields of [set], the others keep
    theirs; the result is [{value: d'}] with the updated document, or
    [{value: null}] (here [None]) when nothing matches. *)
Fixpoint findOneAndUpdate (v : Value) (set : Doc) (coll : list Doc)
  : option Doc * list Doc :=
  match coll with
  | [] => (None, [])
  | d :: r =>
      if hasId v d then let d' := set ∪ d in (Some d', d' :: r)
      else let '(res, r') := findOneAndUpdate v set r in (res, d :: r')
  end.

(** [orders.insertOne(doc)]: the driver gives the document a fresh [_id],
    the store appends it. *)
Definition insertOne (doc : Doc) (st : Store) : ObjectId * Store :=
  let id := nextId st in
  (id, {| lessons := lessons st;
          orders := orders st ++ [<["_id" := VObjectId id]> doc];
          nextId := (id + 1)%N |}).

End Mongo.

(** ** Responses *)

Inductive Body : Type :=
| ErrorBody (error : string)     (* [{error: "..."}] *)
| DocBody (d : Doc)
| DocsBody (l : list Doc).

Record Response : Type := { status : nat; body : Body }.

(** [res.status(code).json({error: msg})] *)
Definition fail (code : nat) (msg : string) : Response :=
  {| status := code; body := ErrorBody msg |}.

(** ** [GET /lessons] *)

Definition get_lessons (st : Store) : Response :=
  let docs := Mongo.find_all (lessons st) in
  {| status := 200; body := DocsBody docs |}.

(** ** [GET /search] *)

(** [req.query.q] as the query-string parser leaves it: absent, a string, an
    array (a repeated parameter) or an object with its own properties (a
    bracketed parameter; the parser lets a property shadow one of
    [Object.prototype]).  No value is a function. *)
#[warnings="-register-all"]
Inductive QueryValue : Type :=
| QUndefined
| QString (s : string)
| QArray (l : list QueryValue)
| QObject (props : list (string * QueryValue)).

Module Query.

(** Does the object have the own property [k]? *)
Fixpoint hasOwn (k : string) (props : list (string * QueryValue)) : bool :=
  match props with
  | [] => false
  | (k', _) :: r => String.eqb k k' || hasOwn k r
  end.

(** [v.toString()].  On [undefined] the property read throws.  An array
    joins the texts of its elements with a comma, an [undefined] element
    giving the empty text.  An object prints as [[object Object]] unless it
    has an own property [toString], which is not callable: the call throws. *)
Fixpoint toString (v : QueryValue) : Exc string :=
  match v with
  | QUndefined => Throw TypeError
  | QString s => Ok s
  | QArray l =>
      let element (x : QueryValue) : Exc string :=
        match x with QUndefined => Ok "" | _ => toString x end in
      (fix elements (l : list QueryValue) : Exc string :=
         match l with
         | [] => Ok ""
         | [x] => element x
         | x :: r => s ← element x; t ← elements r; Ok (s +:+ "," +:+ t)
         end) l
  | QObject props =>
      if hasOwn "toString" props then Throw TypeError else Ok "[object Object]"
  end%string.

(** [v || ''] *)
Definition orEmpty (v : QueryValue) : QueryValue :=
  match v with
  | QUndefined | QString EmptyString => QString EmptyString
  | _ => v
  end.

End Query.

(** The body of the handler's [try] block. *)
Definition get_search_try (query_q : QueryValue) (st : Store) : Exc Response :=
  text ← Query.toString (Query.orEmpty query_q);
  let q := JsString.trim text in
  if JsString.isEmpty q then
    let all := Mongo.find_all (lessons st) in
    Ok {| status := 200; body := DocsBody all |}
  else
    regex ← RegExp.new (RegExp.escape q) "i";
    let maybeNum := Number.ofString q in
    let isNum := negb (Number.isNaN maybeNum) in
    let or := [Mongo.Regex "subject" regex; Mongo.Regex "location" regex] in
    let or := if isNum
              then or ++ [Mongo.Equals "price" maybeNum; Mongo.Equals "spaces" maybeNum]
              else or in
    let results := Mongo.find_or or (lessons st) in
    Ok {| status := 200; body := DocsBody results |}.

Definition get_search (query_q : QueryValue) (st : Store) : Response :=
  match get_search_try query_q st with
  | Ok res => res
  | Throw _ => fail 500 "Search failed"
  end.

(** ** [POST /orders] *)

(** The item loop: [Some res] when an item is rejected with the response
    [res], [None] when the loop runs to its end. *)
Fixpoint check_items (items : list Json) : Exc (option Response) :=
  match items with
  | [] => Ok None
  | it :: rest =>
      lessonId ← Js.getProp it "lessonId";
      badId ← orElse (negb (Js.truthy lessonId))
                     (oid ← ObjectId.createFromHexString lessonId;
                      Ok (ObjectId.isNaN oid));
      if (badId : bool) then Ok (Some (fail 400 "Invalid lessonId"))
      else
        quantity ← Js.getProp it "quantity";
        if negb (Js.isPositiveInteger quantity)
        then Ok (Some (fail 400 "Invalid quantity"))
        else check_items rest
  end.

(** [{ name, phone, items, createdAt: new Date() }]; a property whose value is
    [undefined] is left out. *)
Definition orderDoc (name phone : option Json) (items : list Json) (now : Z) : Doc :=
  let put (k : string) (v : option Json) (d : Doc) : Doc :=
    match v with Some j => <[k := VJson j]> d | None => d end in
  put "name" name
    (put "phone" phone
       (<["items" := VJson (JArr items)]> {["createdAt" := VDate now]})).

(** The body of the handler's [try] block; [now] is the clock read by
    [new Date()]. *)
Definition post_orders_try (req_body : gmap string Json) (now : Z) (st : Store)
  : Exc (Response * Store) :=
  let name := req_body !! "name" in
  let phone := req_body !! "phone" in
  let items := req_body !! "items" in
  badName ← orElse (negb (Js.truthy name))
                   (s ← Js.ToStringU name; Ok (negb (JsString.test_letters_spaces s)));
  if (badName : bool) then Ok (fail 400 "Invalid name", st)
  else
    badPhone ← orElse (negb (Js.truthy phone))
                      (s ← Js.ToStringU phone; Ok (negb (JsString.test_digits s)));
    if (badPhone : bool) then Ok (fail 400 "Invalid phone", st)
    else
      match items with
      | Some (JArr l) =>
          if (length l =? 0)%nat then Ok (fail 400 "No items in order", st)
          else
            rejected ← check_items l;
            match rejected with
            | Some res => Ok (res, st)
            | None =>
                let doc := orderDoc name phone l now in
                let '(insertedId, st') := Mongo.insertOne doc st in
                Ok ({| status := 201;
                       body := DocBody (<["_id" := VObjectId insertedId]> doc) |}, st')
            end
      | _ => Ok (fail 400 "No items in order", st)
      end.

Definition post_orders (req_body : gmap string Json) (now : Z) (st : Store)
  : Response * Store :=
  match post_orders_try req_body now st with
  | Ok r => r
  | Throw _ => (fail 500 "Failed to create order", st)
  end.

(** ** [PUT /lessons/:id] *)

Definition allowed : list string := ["subject"; "location"; "price"; "spaces"; "image"]%string.

(** The loop over [allowed] that copies the body's own properties into [set]. *)
Definition pick (req_body : gmap string Json) : gmap string Json :=
  foldl (fun set k =>
           match req_body !! k with
           | Some v => <[k := v]> set
           | None => set
           end) ∅ allowed.

Definition withLessons (st : Store) (l : list Doc) : Store :=
  {| lessons := l; orders := orders st; nextId := nextId st |}.

(** The first version of the handler: the body of its [try] block.  [link n]
    is the fate of the [n]-th driver call of the request. *)
Definition put_lessons_id_try (link : nat -> Link) (id : string)
    (req_body : gmap string Json) (st : Store) : Exc (Response * Store) :=
  match ObjectId.new id with
  | Throw _ => Ok (fail 400 "Invalid id", st)
  | Ok oid =>
      let set := pick req_body in
      if (size set =? 0)%nat then Ok (fail 400 "No valid fields to update", st)
      else
        r ← Mongo.call (link 0)
              (Mongo.findOneAndUpdate (VObjectId oid) (VJson <$> set) (lessons st));
        let '(result, ls) := r in
        match result with
        | None => Ok (fail 404 "Lesson not found", withLessons st ls)
        | Some value => Ok ({| status := 200; body := DocBody value |}, withLessons st ls)
        end
  end.

(** The handler: an exception of the [try] block is answered 500. *)
Definition put_lessons_id_with (link : nat -> Link) (id : string)
    (req_body : gmap string Json) (st : Store) : Response * Store :=
  match put_lessons_id_try link id req_body st with
  | Ok r => r
  | Throw _ => (fail 500 "Failed to update lesson", st)
  end.

(** The second version: when no document has the typed identifier, the update
    is tried again with the raw string as [_id]. *)
Definition put_lessons_id_fallback_try (link : nat -> Link) (id : string)
    (req_body : gmap string Json) (st : Store) : Exc (Response * Store) :=
  match ObjectId.new id with
  | Throw _ => Ok (fail 400 "Invalid id", st)
  | Ok oid =>
      let set := pick req_body in
      if (size set =? 0)%nat then Ok (fail 400 "No valid fields to update", st)
      else
        r ← Mongo.call (link 0)
              (Mongo.findOneAndUpdate (VObjectId oid) (VJson <$> set) (lessons st));
        let '(result, ls) := r in
        r ← match result with
            | None => Mongo.call (link 1)
                        (Mongo.findOneAndUpdate (VJson (JStr id)) (VJson <$> set) ls)
            | Some _ => Ok (result, ls)
            end;
        let '(result, ls) := r in
        match result with
        | None => Ok (fail 404 "Lesson not found", withLessons st ls)
        | Some value => Ok ({| status := 200; body := DocBody value |}, withLessons st ls)
        end
  end.

Definition put_lessons_id_fallback_with (link : nat -> Link) (id : string)
    (req_body : gmap string Json) (st : Store) : Response * Store :=
  match put_lessons_id_fallback_try link id req_body st with
  | Ok r => r
  | Throw _ => (fail 500 "Failed to update lesson", st)
  end.

(** Every driver call reaches the store. *)
Definition up : nat -> Link := fun _ => Up.

(** The two versions of the handler on a store that answers. *)
Definition put_lessons_id (id : string) (req_body : gmap string Json) (st : Store)
  : Response * Store :=
  put_lessons_id_with up id req_body st.

Definition put_lessons_id_fallback (id : string) (req_body : gmap string Json) (st : Store)
  : Response * Store :=
  put_lessons_id_fallback_with up id req_body st.

(** ** The seeding script [seed.js] *)

Module Seed.

Definition lesson (subject location : string) (price spaces : Z) : gmap string Json :=
  {[ "subject" := JStr subject; "location" := JStr location;
     "price" := JNum (Finite price 0); "spaces" := JNum (Finite spaces 0);
     "image" := JNull ]}.

Definition docs : list (gmap string Json) :=
  [ lesson "Math" "Hendon" 100 5;
    lesson "Science" "Colindale" 90 5;
    lesson "English" "Brent Cross" 80 5;
    lesson "Coding" "Golders Green" 95 5;
    lesson "Art" "Camden" 70 5;
    lesson "Music" "Barnet" 85 5;
    lesson "Drama" "Edgware" 75 5;
    lesson "Robotics" "Wembley" 110 5;
    lesson "Chess" "Mill Hill" 65 5;
    lesson "French" "Finchley" 88 5 ]%string.

(** [insertMany]: each document gets the next identifier. *)
Fixpoint insertMany (ds : list (gmap string Json)) (next : ObjectId) : list Doc * ObjectId :=
  match ds with
  | [] => ([], next)
  | d :: r =>
      let '(r', next') := insertMany r (next + 1)%N in
      (<["_id" := VObjectId next]> (VJson <$> d) :: r', next')
  end.

(** [run]: [deleteMany({})] on the lessons, then [insertMany(docs)]. *)
Definition run (st : Store) : Store :=
  let '(ls, next) := insertMany docs (nextId st) in
  {| lessons := ls; orders := orders st; nextId := next |}.

Definition store : Store := run {| lessons := []; orders := []; nextId := 0%N |}.

End Seed.

(** The [subject] fields of the documents of a response, for reading results. *)
Definition subjects (r : Response) : list string :=
  match body r with
  | DocsBody l =>
      omap (fun d : Doc => match d !! "subject" with
                           | Some (VJson (JStr s)) => Some s
                           | _ => None
                           end) l
  | _ => []
  end.

(** ** [GET /health/db] (second version) *)

(** The body [{status, database, collections: {lessons, orders}}]. *)
Record DbHealth : Type := {
  db_status : string;
  database : string;
  lessonsCount : nat;
  ordersCount : nat
}.

(** [DB_NAME] is the configured database name; [countDocuments()] is the
    number of documents of a collection. *)
Definition get_health_db (DB_NAME : string) (st : Store) : nat * DbHealth :=
  (200, {| db_status := "connected";
           database := DB_NAME;
           lessonsCount := length (lessons st);
           ordersCount := length (orders st) |}).

(** ** [GET /images/:fileName] *)

(** POSIX [path.join] and [path.normalize]. *)
Module Path.

Definition isSlash (c : ascii) : bool := Ascii.eqb c "/".

(** The pieces of a path between its slashes. *)
Fixpoint segments (p : string) : list string :=
  match p with
  | EmptyString => [EmptyString]
  | String c r =>
      if isSlash c then EmptyString :: segments r
      else match segments r with
           | s :: l => String c s :: l
           | [] => [String c EmptyString]
           end
  end.

(** One segment against the segments kept so far (last one first): an empty
    segment and [.] are dropped, [..] removes the last kept segment (above
    the root it is dropped, or kept when [allowAboveRoot]). *)
Definition step (allowAboveRoot : bool) (stack : list string) (seg : string) : list string :=
  if String.eqb seg "" || String.eqb seg "." then stack
  else if String.eqb seg ".." then
    match stack with
    | top :: below =>
        if String.eqb top ".." then (if allowAboveRoot then seg :: stack else stack)
        else below
    | [] => if allowAboveRoot then [seg] else []
    end
  else seg :: stack.

(** The segments that remain, in path order. *)
Definition resolve (allowAboveRoot : bool) (p : string) : list string :=
  rev (fold_left (step allowAboveRoot) (segments p) []).

Definition normalizeString (p : string) (allowAboveRoot : bool) : string :=
  JsString.join "/" (resolve allowAboveRoot p).

Definition isAbsolute (p : string) : bool :=
  match p with String c _ => isSlash c | EmptyString => false end.

Fixpoint endsWithSlash (p : string) : bool :=
  match p with
  | EmptyString => false
  | String c EmptyString => isSlash c
  | String _ r => endsWithSlash r
  end.

(** [path.normalize(p)] *)
Definition normalize (p : string) : string :=
  if JsString.isEmpty p then "."
  else
    let abs := isAbsolute p in
    let trailingSeparator := endsWithSlash p in
    let body := normalizeString p (negb abs) in
    if JsString.isEmpty body then
      (if abs then "/" else if trailingSeparator then "./" else ".")
    else
      (if abs then "/" else "") +:+ body +:+ (if trailingSeparator then "/" else "").

(** [path.join(...args)]: the non-empty arguments joined by a slash, then
    normalized. *)
Definition join (args : list string) : string :=
  match List.filter (fun a => negb (JsString.isEmpty a)) args with
  | [] => "."
  | parts => normalize (JsString.join "/" parts)
  end.

End Path.

(** What the handler does with the response: a JSON answer, or
    [res.sendFile(path)]. *)
Inductive Sent : Type :=
| Answer (res : Response)
| SendFile (path : string).

(** [dirname] is [__dirname]; [access p] tells whether
    [fs.access(p, F_OK)] succeeds. *)
Definition get_images (dirname : string) (access : string -> bool) (fileName : string) : Sent :=
  let imagesDir := Path.join [dirname; "images"%string] in
  let filePath := Path.join [imagesDir; fileName] in
  if access filePath then SendFile filePath
  else Answer (fail 404 "Image not found").

(** * Vocabulary of the properties *)

(** ** Text *)

(** A string that does not begin with white space. *)
Definition headed (s : string) : Prop :=
  match s with
  | EmptyString => True
  | String c _ => JsString.isWhiteSpace c = false
  end.

(** The text in lower case. *)
Fixpoint lower (s : string) : string :=
  match s with
  | EmptyString => EmptyString
  | String c r => String (JsString.toLower c) (lower r)
  end.

(** In the spec's words: [s] contains [t] as a case-insensitive substring. *)
Definition includesCI (s t : string) : Prop :=
  exists pre post : string, lower s = pre +:+ lower t +:+ post.

(** ** What a search answers *)

(** The field holds the value [j]: it is [j] or, being an array, has [j]
    among its elements. *)
Definition holds (field : option Value) (j : Json) : Prop :=
  field = Some (VJson j) \/ exists l, field = Some (VJson (JArr l)) /\ j ∈ l.

(** The field holds a text that contains [t], case-insensitively. *)
Definition containsCI (field : option Value) (t : string) : Prop :=
  exists s, holds field (JStr s) /\ includesCI s t.

(** The field holds a number equal to [x]. *)
Definition equalsNumber (field : option Value) (x : JsNumber) : Prop :=
  exists y, holds field (JNum y) /\ Number.eqb y x = true.

(** The disjunction of the spec for the query text [t]; the number that [t]
    parses as is [Number(t)], a double. *)
Definition clauses (d : Doc) (t : string) : Prop :=
  containsCI (d !! "subject") t \/
  containsCI (d !! "location") t \/
  (Number.ofString t <> NaN /\
   (equalsNumber (d !! "price") (Number.ofString t) \/
    equalsNumber (d !! "spaces") (Number.ofString t))).

(** The response lists exactly the lessons of the store that satisfy the
    disjunction for [t]. *)
Definition answers (res : Response) (t : string) (st : Store) : Prop :=
  exists results, res = {| status := 200; body := DocsBody results |} /\
    forall d : Doc, d ∈ results <-> d ∈ lessons st /\ clauses d t.

(** ** Order validation in the spec's words *)

(** The checks in the spec's words, on a payload whose name and phone are
    strings: the name is letters and white space, the phone is digits, the
    items are a non-empty list, and every item has a [lessonId] that is a
    string of 24 hexadecimal digits and a positive integer [quantity]. *)
Definition specName (v : option Json) : bool :=
  match v with Some (JStr s) => JsString.test_letters_spaces s | _ => false end.

Definition specPhone (v : option Json) : bool :=
  match v with Some (JStr s) => JsString.test_digits s | _ => false end.

Definition specLessonId (v : option Json) : bool :=
  match v with Some (JStr s) => ObjectId.isHex24 s | _ => false end.

Definition field (it : Json) (k : string) : option Json :=
  match it with JObj l => Js.assoc k l | _ => None end.

(** The error of the first item that fails a check, in list order. *)
Fixpoint specItems (items : list Json) : option string :=
  match items with
  | [] => None
  | it :: rest =>
      if negb (specLessonId (field it "lessonId")) then Some "Invalid lessonId"%string
      else if negb (Js.isPositiveInteger (field it "quantity")) then Some "Invalid quantity"%string
      else specItems rest
  end.

(** The error of the first failing check, [None] when all pass. *)
Definition specValidate (req_body : gmap string Json) : option string :=
  if negb (specName (req_body !! "name")) then Some "Invalid name"%string
  else if negb (specPhone (req_body !! "phone")) then Some "Invalid phone"%string
  else match req_body !! "items" with
       | Some (JArr l) =>
           if (length l =? 0)%nat then Some "No items in order"%string else specItems l
       | _ => Some "No items in order"%string
       end.

Definition stringOrAbsent (v : option Json) : Prop :=
  v = None \/ exists s, v = Some (JStr s).

(** The order document that a request yields once it is accepted. *)
Definition accepted (req_body : gmap string Json) (l : list Json) (now : Z) (st : Store)
  : Response * Store :=
  let doc := orderDoc (req_body !! "name") (req_body !! "phone") l now in
  ({| status := 201; body := DocBody (<["_id" := VObjectId (nextId st)]> doc) |},
   {| lessons := lessons st;
      orders := orders st ++ [<["_id" := VObjectId (nextId st)]> doc];
      nextId := (nextId st + 1)%N |}).

(** ** Requests and documents used as concrete inputs *)

(** The first seeded lesson as it is stored. *)
Definition mathLesson : Doc :=
  <["_id" := VObjectId 0%N]> (VJson <$> Seed.lesson "Math" "Hendon" 100 5).

(** An order with an empty item list. *)
Definition noItems : gmap string Json :=
  {[ "name" := JStr "John Doe"; "phone" := JStr "07123456789"; "items" := JArr [] ]}.

(** An order for one seat in one lesson. *)
Definition oneSeat : gmap string Json :=
  {[ "name" := JStr "John Doe"; "phone" := JStr "07123456789";
     "items" := JArr [JObj [("lessonId", JStr "64b0c0ffee0123456789abcd");
                            ("quantity", JNum (Finite 1 0))]] ]}.

(** A well-formed order whose only item names a lesson by a string that is
    not an identifier. *)
Definition unparsableLessonId : gmap string Json :=
  {[ "name" := JStr "John Doe"; "phone" := JStr "07123456789";
     "items" := JArr [JObj [("lessonId", JStr "not-a-lesson-id");
                            ("quantity", JNum (Finite 1 0))]] ]}.

(** A well-formed order whose second item has both an unparsable [lessonId]
    and a quantity that is not positive. *)
Definition secondItemUnparsable : gmap string Json :=
  {[ "name" := JStr "John Doe"; "phone" := JStr "07123456789";
     "items" := JArr [JObj [("lessonId", JStr "64b0c0ffee0123456789abcd");
                            ("quantity", JNum (Finite 1 0))];
                      JObj [("lessonId", JStr "lesson-2");
                            ("quantity", JNum (Finite 0 0))]] ]}.

(** A request that sets the spaces of a lesson and carries a field outside
    the allow-list. *)
Definition threeSpaces : gmap string Json :=
  {[ "spaces" := JNum (Finite 3 0); "foo" := JNum (Finite 1 0) ]}.

(** A body without any allow-listed field. *)
Definition onlyFoo : gmap string Json := {[ "foo" := JNum (Finite 1 0) ]}.

(** ** Stored orders *)

(** An item as the data model wants it: a [lessonId] of 24 hexadecimal
    digits and a positive integer [quantity]. *)
Definition validItem (it : Json) : Prop :=
  exists s q, field it "lessonId" = Some (JStr s) /\ ObjectId.isHex24 s = true /\
              field it "quantity" = Some (JNum q) /\
              Number.isInteger q = true /\ Number.leb0 q = false.

(** The field holds a truthy JSON value whose text passes [test]. *)
Definition passes (test : string -> bool) (v : option Value) : Prop :=
  exists j s, v = Some (VJson j) /\ Js.truthy (Some j) = true /\
              Js.ToString j = Ok s /\ test s = true.

Definition validOrder (d : Doc) : Prop :=
  passes JsString.test_letters_spaces (d !! "name") /\
  passes JsString.test_digits (d !! "phone") /\
  (exists l, d !! "items" = Some (VJson (JArr l)) /\ l <> [] /\ Forall validItem l) /\
  (exists t, d !! "createdAt" = Some (VDate t)) /\
  (exists o, d !! "_id" = Some (VObjectId o)).

(** ** The two versions of the update handler *)

Definition put_version (fallback : bool)
  : string -> gmap string Json -> Store -> Response * Store :=
  if fallback then put_lessons_id_fallback else put_lessons_id.

Definition put_version_with (fallback : bool) (link : nat -> Link)
  : string -> gmap string Json -> Store -> Response * Store :=
  if fallback then put_lessons_id_fallback_with link else put_lessons_id_with link.

(** ** Lessons and file names *)

(** Every lesson is identified by an [ObjectId]. *)
Definition typedIds (coll : list Doc) : Prop :=
  forall d, d ∈ coll -> exists o, d !! "_id" = Some (VObjectId o).

Definition slashFree (n : string) : Prop :=
  JsString.all (fun c => negb (Path.isSlash c)) n = true.

(** A file name proper: no slash, and none of the empty name, [.] and [..]. *)
Definition plainName (n : string) : Prop :=
  slashFree n /\ n <> EmptyString /\ n <> "."%string /\ n <> ".."%string.

(** * Properties *)

(** ** The model on concrete inputs *)

Example trim_padded : JsString.trim "  Math	 " = "Math"%string.
Proof. reflexivity. Qed.
Example trim_inner_space : JsString.trim " Brent Cross " = "Brent Cross"%string.
Proof. reflexivity. Qed.
Example name_ok : JsString.test_letters_spaces "John Doe" = true.
Proof. reflexivity. Qed.
Example name_digits : JsString.test_letters_spaces "John123" = false.
Proof. reflexivity. Qed.
Example phone_letters : JsString.test_digits "abc" = false.
Proof. reflexivity. Qed.
Example Number_90 : Number.ofString "90" = Finite 90 0.
Proof. reflexivity. Qed.
Example Number_blank : Number.ofString "   " = Finite 0 0.
Proof. reflexivity. Qed.
Example Number_fraction : Number.ofString "-12.50e1" = Finite (-1250) (-1).
Proof. reflexivity. Qed.
Example Number_hex : Number.ofString "0x1F" = Finite 31 0.
Proof. reflexivity. Qed.
Example Number_word : Number.ofString "Math" = NaN.
Proof. reflexivity. Qed.
Example Number_inner_space : Number.ofString "9 0" = NaN.
Proof. reflexivity. Qed.
Example Number_dot : Number.ofString "." = NaN.
Proof. reflexivity. Qed.
Example Number_eq_scaled : Number.eqb (Finite 900 (-1)) (Finite 9 1) = true.
Proof. reflexivity. Qed.
Example Number_half : Number.ofString "0.5" = Finite 5 (-1).
Proof. vm_compute. reflexivity. Qed.
Example Number_rounds : Number.eqb (Number.ofString "90.00000000000000001") (Finite 90 0) = true.
Proof. vm_compute. reflexivity. Qed.
Example Number_tenth :
  Number.ofString "0.1" = Finite (7205759403792794 * 5 ^ 56) (-56) /\
  Number.eqb (Number.ofString "0.1") (Finite 1 (-1)) = false /\
  Number.eqb (Number.ofString "0.1") (Number.ofString "0.10000000000000000001") = true.
Proof. split; [|split]; vm_compute; reflexivity. Qed.
Example Number_tie_to_even :
  Number.ofString "9007199254740993" = Finite 9007199254740992 0 /\
  Number.ofString "9007199254740995" = Finite 9007199254740996 0.
Proof. vm_compute. split; reflexivity. Qed.
Example Number_largest :
  Number.ofString "1.7976931348623158e308" = Finite (2 ^ 1024 - 2 ^ 971) 0 /\
  Number.ofString "1.7976931348623159e308" = Infinity false /\
  Number.ofString "-1e400" = Infinity true.
Proof. split; [|split]; vm_compute; reflexivity. Qed.
Example Number_smallest :
  Number.eqb (Number.ofString "5e-324") (Finite (5 ^ 1074) (-1074)) = true /\
  Number.eqb (Number.ofString "2e-324") (Finite 0 0) = true /\
  Number.isNaN (Number.ofString "1e-400") = false.
Proof. split; [|split]; vm_compute; reflexivity. Qed.
Example isInteger_2_0 : Number.isInteger (Finite 20 (-1)) = true.
Proof. reflexivity. Qed.
Example isInteger_1_5 : Number.isInteger (Finite 15 (-1)) = false.
Proof. reflexivity. Qed.
Example toString_int : Number.toString (Finite 1230 0) = "1230"%string.
Proof. vm_compute. reflexivity. Qed.
Example toString_frac : Number.toString (Finite (-15) (-1)) = "-1.5"%string.
Proof. vm_compute. reflexivity. Qed.
Example toString_small : Number.toString (Finite 5 (-7)) = "5e-7"%string.
Proof. vm_compute. reflexivity. Qed.
Example toString_lead : Number.toString (Finite 25 (-4)) = "0.0025"%string.
Proof. vm_compute. reflexivity. Qed.
Example toString_big : Number.toString (Finite 12 21) = "1.2e+22"%string.
Proof. vm_compute. reflexivity. Qed.
Example oid_case_insensitive :
  ObjectId.new "64B0C0FFEE0123456789ABCD" = ObjectId.new "64b0c0ffee0123456789abcd".
Proof. reflexivity. Qed.
Example oid_short : ObjectId.new "xyz" = Throw BSONError.
Proof. reflexivity. Qed.
Example oid_create_short : ObjectId.createFromHexString (Some (JStr "xyz")) = Throw BSONError.
Proof. reflexivity. Qed.
Example oid_create_number : ObjectId.createFromHexString (Some (JNum (Finite 5 0))) = Throw BSONError.
Proof. reflexivity. Qed.
Example ToString_array :
  Js.ToString (JArr [JStr "Al"; JNull; JNum (Finite 15 (-1)); JArr [JBool true]]) = Ok "Al,,1.5,true"%string.
Proof. vm_compute. reflexivity. Qed.
Example escape_price : RegExp.escape "$9.50 (a+b)" = "\$9\.50 \(a\+b\)"%string.
Proof. reflexivity. Qed.
Example regex_dot_is_literal :
  (re ← RegExp.new (RegExp.escape "a.c") "i"; Ok (RegExp.test re "xABCx", RegExp.test re "xA.Cx"))
  = Ok (false, true).
Proof. reflexivity. Qed.

(** ** Trimming *)

Section Trim.
Import JsString.

Lemma app_nil (s : string) : EmptyString +:+ s = s.
Proof. reflexivity. Qed.

Lemma app_cons (c : ascii) (r s : string) : String c r +:+ s = String c (r +:+ s).
Proof. reflexivity. Qed.

Lemma trimStart_blank (s : string) : all isWhiteSpace s = true -> trimStart s = EmptyString.
Proof.
  induction s as [|c r IH]; simpl; [done|].
  intros [Hc Hr]%andb_prop. rewrite Hc. auto.
Qed.

Lemma trimEnd_blank (s : string) : all isWhiteSpace s = true -> trimEnd s = EmptyString.
Proof.
  induction s as [|c r IH]; simpl; [done|].
  intros [Hc Hr]%andb_prop. rewrite (IH Hr), Hc. done.
Qed.

Lemma trim_blank (s : string) : all isWhiteSpace s = true -> trim s = EmptyString.
Proof. intros H. unfold trim. rewrite trimStart_blank; done. Qed.

Lemma trimStart_lead (lead s : string) :
  all isWhiteSpace lead = true -> trimStart (lead +:+ s) = trimStart s.
Proof.
  induction lead as [|c r IH]; [done|].
  rewrite app_cons. simpl. intros [Hc Hr]%andb_prop. rewrite Hc. auto.
Qed.

Lemma trimEnd_trail (s trail : string) :
  all isWhiteSpace trail = true -> trimEnd (s +:+ trail) = trimEnd s.
Proof.
  intros Ht. induction s as [|c r IH].
  - rewrite app_nil. by apply trimEnd_blank.
  - rewrite app_cons. simpl. by rewrite IH.
Qed.

Lemma trim_trail (s trail : string) :
  all isWhiteSpace trail = true -> trim (s +:+ trail) = trim s.
Proof.
  intros Ht. unfold trim. induction s as [|c r IH].
  - rewrite app_nil. by rewrite (trimStart_blank trail Ht).
  - rewrite app_cons. simpl. destruct (isWhiteSpace c); [done|].
    rewrite <- app_cons. by apply trimEnd_trail.
Qed.

Lemma trim_surrounded (lead s trail : string) :
  all isWhiteSpace lead = true -> all isWhiteSpace trail = true ->
  trim (lead +:+ s +:+ trail) = trim s.
Proof.
  intros Hl Ht. rewrite <- (trim_trail s trail Ht).
  unfold trim. by rewrite trimStart_lead.
Qed.

Lemma trimStart_headed (s : string) : headed (trimStart s).
Proof.
  induction s as [|c r IH]; simpl; [done|].
  destruct (isWhiteSpace c) eqn:Hc; [done|]. simpl. done.
Qed.

Lemma trimStart_id (s : string) : headed s -> trimStart s = s.
Proof. destruct s as [|c r]; simpl; [done|]. intros Hc. by rewrite Hc. Qed.

Lemma trimEnd_headed (s : string) : headed s -> headed (trimEnd s).
Proof.
  destruct s as [|c r]; simpl; [done|]. intros Hc. rewrite Hc. simpl. done.
Qed.

Lemma trimEnd_idempotent (s : string) : trimEnd (trimEnd s) = trimEnd s.
Proof.
  induction s as [|c r IH]; simpl; [done|].
  destruct (isWhiteSpace c && isEmpty (trimEnd r)) eqn:E; simpl; [done|].
  by rewrite IH, E.
Qed.

Lemma trim_idempotent (s : string) : trim (trim s) = trim s.
Proof.
  unfold trim.
  rewrite (trimStart_id (trimEnd (trimStart s))).
  - apply trimEnd_idempotent.
  - apply trimEnd_headed, trimStart_headed.
Qed.

Lemma isEmpty_true (s : string) : isEmpty s = true <-> s = EmptyString.
Proof. destruct s; simpl; split; congruence. Qed.

Lemma isEmpty_false (s : string) : isEmpty s = false <-> s <> EmptyString.
Proof. destruct s; simpl; split; congruence. Qed.

End Trim.

(** ** [GET /search]: the query *)

(** The text of a string query is the string. *)
Lemma Query_toString_orEmpty (q : string) :
  Query.toString (Query.orEmpty (QString q)) = Ok q.
Proof. by destruct q. Qed.

(** The handler depends on its query only through the trimmed text. *)
Lemma get_search_text (v : QueryValue) (s : string) (st : Store) :
  Query.toString (Query.orEmpty v) = Ok s ->
  get_search v st = get_search (QString (JsString.trim s)) st.
Proof.
  intros E. unfold get_search, get_search_try.
  rewrite E, Query_toString_orEmpty. simpl.
  by rewrite trim_idempotent.
Qed.

Lemma get_search_trimmed (q : string) (st : Store) :
  get_search (QString q) st = get_search (QString (JsString.trim q)) st.
Proof. apply get_search_text, Query_toString_orEmpty. Qed.

(** A query whose text cannot be taken is answered by the [catch] branch. *)
Lemma get_search_throws (v : QueryValue) (e : Exception) (st : Store) :
  Query.toString (Query.orEmpty v) = Throw e ->
  get_search v st = fail 500 "Search failed".
Proof. intros E. unfold get_search, get_search_try. by rewrite E. Qed.

(** C5. For every store state, [GET /search] with an absent or an empty query
    string gives the very response of [GET /lessons]: the full collection,
    unfiltered, in store order. *)
Theorem get_search_empty_is_get_lessons (st : Store) :
  get_search QUndefined st = get_lessons st /\
  get_search (QString "") st = get_lessons st.
Proof. split; reflexivity. Qed.

(** C10. The query is trimmed before anything else is done with it: a query
    made of white space only ([lead +:+ trail]) is answered as the empty
    query, with all lessons, and white space around a query [q] changes
    nothing in the answer, whatever [q] is; in general the answer is that of
    the trimmed query. *)
Theorem get_search_trims_query (st : Store) (lead q trail : string) :
  JsString.all JsString.isWhiteSpace lead = true ->
  JsString.all JsString.isWhiteSpace trail = true ->
  get_search (QString (lead +:+ trail)) st = get_lessons st /\
  get_search (QString (lead +:+ q +:+ trail)) st = get_search (QString q) st /\
  get_search (QString q) st = get_search (QString (JsString.trim q)) st.
Proof.
  intros Hl Ht. split; [|split].
  - rewrite get_search_trimmed.
    rewrite <- (app_nil trail).
    rewrite (trim_surrounded lead EmptyString trail Hl Ht). reflexivity.
  - rewrite (get_search_trimmed (lead +:+ q +:+ trail)).
    rewrite (get_search_trimmed q).
    by rewrite trim_surrounded.
  - apply (get_search_trimmed q).
Qed.

Lemma get_search_trims_query_witness :
  get_search (QString (" 	" +:+ " ")) Seed.store = get_lessons Seed.store /\
  get_search (QString ("  " +:+ "math" +:+ " ")) Seed.store = get_search (QString "math") Seed.store /\
  get_search (QString "math") Seed.store = get_search (QString (JsString.trim "math")) Seed.store.
Proof. apply (get_search_trims_query Seed.store " 	" "math" " "); reflexivity. Defined.

(** ** Regular expressions built from an escaped query *)

Section Regex.
Import JsString.

Lemma syntaxChar_not_alphaNum (c : ascii) :
  RegExp.isSyntaxChar c = true -> RegExp.isAlphaNum c = false.
Proof. destruct c as [[] [] [] [] [] [] [] []]; vm_compute; congruence. Qed.

Lemma literalOf_plain (c : ascii) (r : string) :
  RegExp.isSyntaxChar c = false ->
  RegExp.literalOf (String c r) = (l ← RegExp.literalOf r; Ok (String c l)).
Proof.
  destruct c as [[] [] [] [] [] [] [] []]; intros H;
    solve [ discriminate H | reflexivity ].
Qed.

Lemma literalOf_escaped (c : ascii) (r : string) :
  RegExp.isSyntaxChar c = true ->
  RegExp.literalOf (String "\" (String c r)) = (l ← RegExp.literalOf r; Ok (String c l)).
Proof.
  intros H. simpl. by rewrite (syntaxChar_not_alphaNum c H).
Qed.

(** Escaping makes every query a pattern for itself. *)
Lemma literalOf_escape (q : string) : RegExp.literalOf (RegExp.escape q) = Ok q.
Proof.
  induction q as [|c r IH]; [reflexivity|].
  cbn [RegExp.escape]. destruct (RegExp.isSyntaxChar c) eqn:E.
  - rewrite (literalOf_escaped c _ E), IH. reflexivity.
  - rewrite (literalOf_plain c _ E), IH. reflexivity.
Qed.

Lemma RegExp_new_escape (q : string) :
  RegExp.new (RegExp.escape q) "i" = Ok {| RegExp.literal := q; RegExp.ignoreCase := true |}.
Proof. unfold RegExp.new. rewrite literalOf_escape. reflexivity. Qed.

Lemma matchHere_spec (p s : string) :
  RegExp.matchHere true p s = true <-> exists post, lower s = lower p +:+ post.
Proof.
  revert s. induction p as [|a p IH]; intros s.
  - simpl. split; [|done]. intros _. by exists (lower s).
  - destruct s as [|b s]; simpl.
    + split; [done|]. intros [post H]. discriminate H.
    + rewrite andb_true_iff, IH. unfold RegExp.fold.
      split.
      * intros [Hab [post Hp]]. exists post.
        apply Ascii.eqb_eq in Hab. rewrite app_cons. congruence.
      * intros [post Hp]. rewrite app_cons in Hp. injection Hp as Hc Hr.
        split; [apply Ascii.eqb_eq; congruence | by exists post].
Qed.

Lemma search_spec (p s : string) :
  RegExp.search true p s = true <-> includesCI s p.
Proof.
  unfold includesCI. induction s as [|c r IH]; simpl.
  - rewrite orb_false_r, matchHere_spec. split.
    + intros [post H]. by exists EmptyString, post.
    + intros [[|x pre] [post H]]; [by exists post|]. discriminate H.
  - rewrite orb_true_iff, IH, matchHere_spec. split.
    + intros [[post H]|[pre [post H]]].
      * by exists EmptyString, post.
      * exists (String (toLower c) pre), post. rewrite app_cons. simpl in *. congruence.
    + intros [[|x pre] [post H]].
      * left. by exists post.
      * right. exists pre, post. rewrite app_cons in H. simpl in H. congruence.
Qed.

End Regex.

(** ** [GET /search]: which lessons are returned *)

Section Search.

(** A document satisfies a clause when its field holds a value that
    satisfies the clause's test. *)
Lemma matches_holds (d : Doc) (c : Mongo.Clause) :
  Mongo.matches d c = true
  <-> exists j, holds (d !! Mongo.fieldOf c) j /\ Mongo.satisfies c j = true.
Proof.
  unfold Mongo.matches, holds. split.
  - destruct (d !! Mongo.fieldOf c) as [[j| |]|]; try discriminate.
    destruct j as [| | | |l|]; intros H; try (eexists; split; [by left|done]).
    apply existsb_exists in H as [x [Hx Hs]]. exists x. split; [|done].
    right. exists l. split; [done|]. by apply list_elem_of_In.
  - intros [j [[E|[l [E Hj]]] Hs]]; rewrite E.
    + destruct j; try done. destruct c; discriminate.
    + apply existsb_exists. exists j. split; [by apply list_elem_of_In|done].
Qed.

Lemma matches_Regex (d : Doc) (f t : string) :
  Mongo.matches d (Mongo.Regex f {| RegExp.literal := t; RegExp.ignoreCase := true |}) = true
  <-> containsCI (d !! f) t.
Proof.
  rewrite matches_holds. unfold containsCI. simpl. split.
  - intros [[| | |s| |] [Hj Hs]]; try discriminate.
    exists s. split; [done|]. by apply search_spec.
  - intros [s [Hj H]]. exists (JStr s). split; [done|]. by apply search_spec.
Qed.

Lemma matches_Equals (d : Doc) (f : string) (x : JsNumber) :
  Mongo.matches d (Mongo.Equals f x) = true <-> equalsNumber (d !! f) x.
Proof.
  rewrite matches_holds. unfold equalsNumber. simpl. split.
  - intros [[| |y| | |] [Hj Hs]]; try discriminate. by exists y.
  - intros [y [Hj H]]. by exists (JNum y).
Qed.

Lemma isNaN_false (x : JsNumber) : Number.isNaN x = false <-> x <> NaN.
Proof. destruct x; simpl; split; congruence. Qed.

Lemma elem_of_find_or (cs : list Mongo.Clause) (coll : list Doc) (d : Doc) :
  d ∈ Mongo.find_or cs coll <-> d ∈ coll /\ exists c, c ∈ cs /\ Mongo.matches d c = true.
Proof.
  unfold Mongo.find_or. rewrite !list_elem_of_In, filter_In, existsb_exists.
  split; intros [H [c [Hc Hm]]]; (split; [done|]); exists c; split; try done;
    by apply list_elem_of_In.
Qed.

(** What the handler does with a query whose trimmed text [t] is not empty. *)
Lemma get_search_nonempty (v : QueryValue) (s : string) (st : Store) :
  Query.toString (Query.orEmpty v) = Ok s ->
  let t := JsString.trim s in
  t <> EmptyString ->
  get_search v st =
    {| status := 200;
       body := DocsBody (Mongo.find_or
         ([Mongo.Regex "subject" {| RegExp.literal := t; RegExp.ignoreCase := true |};
           Mongo.Regex "location" {| RegExp.literal := t; RegExp.ignoreCase := true |}]
          ++ (if Number.isNaN (Number.ofString t) then []
              else [Mongo.Equals "price" (Number.ofString t);
                    Mongo.Equals "spaces" (Number.ofString t)]))
         (lessons st)) |}.
Proof.
  intros E t Ht. unfold get_search, get_search_try.
  rewrite E. simpl. fold t.
  apply isEmpty_false in Ht. rewrite Ht, RegExp_new_escape. simpl.
  destruct (Number.isNaN (Number.ofString t)); reflexivity.
Qed.

(** The query built by the handler selects the lessons that satisfy the
    disjunction of the spec. *)
Lemma find_or_clauses (t : string) (coll : list Doc) (d : Doc) :
  d ∈ Mongo.find_or
        ([Mongo.Regex "subject" {| RegExp.literal := t; RegExp.ignoreCase := true |};
          Mongo.Regex "location" {| RegExp.literal := t; RegExp.ignoreCase := true |}]
         ++ (if Number.isNaN (Number.ofString t) then []
             else [Mongo.Equals "price" (Number.ofString t);
                   Mongo.Equals "spaces" (Number.ofString t)]))
        coll
  <-> d ∈ coll /\ clauses d t.
Proof.
  rewrite elem_of_find_or. unfold clauses.
  split; intros [Hd H]; (split; [done|]).
  - destruct H as [c [Hc Hm]].
    apply elem_of_app in Hc as [Hc|Hc].
    + apply elem_of_cons in Hc as [->|Hc]; [left; by apply matches_Regex|].
      apply list_elem_of_singleton in Hc as ->. right; left. by apply matches_Regex.
    + right; right. destruct (Number.isNaN (Number.ofString t)) eqn:E.
      { by apply elem_of_nil in Hc. }
      split; [by apply isNaN_false|].
      apply elem_of_cons in Hc as [->|Hc]; [left; by apply matches_Equals|].
      apply list_elem_of_singleton in Hc as ->. right. by apply matches_Equals.
  - destruct H as [H|[H|[Hn H]]].
    + eexists. split; [|by apply matches_Regex]. apply elem_of_app. left. apply elem_of_cons. by left.
    + eexists. split; [|by apply matches_Regex]. apply elem_of_app. left.
      apply elem_of_cons. right. by apply list_elem_of_singleton.
    + apply isNaN_false in Hn. rewrite Hn. destruct H as [H|H].
      * eexists. split; [|by apply matches_Equals]. apply elem_of_app. right.
        apply elem_of_cons. by left.
      * eexists. split; [|by apply matches_Equals]. apply elem_of_app. right.
        apply elem_of_cons. right. by apply list_elem_of_singleton.
Qed.

(** When the response is claimed to answer some text [t'], every stored
    lesson that satisfies the disjunction for the trimmed text satisfies it
    for [t'] too. *)
Lemma answers_transfer (q : string) (st : Store) (t' : string) (d : Doc) :
  JsString.trim q <> EmptyString ->
  answers (get_search (QString q) st) t' st ->
  d ∈ lessons st -> clauses d (JsString.trim q) -> clauses d t'.
Proof.
  intros Ht [results [E H]] Hd Hc.
  rewrite (get_search_nonempty (QString q) q st (Query_toString_orEmpty q) Ht) in E.
  injection E as <-.
  apply H. by apply find_or_clauses.
Qed.

(** On a string query the handler does not reach its [catch] branch. *)
Lemma get_search_status (q : string) (st : Store) : status (get_search (QString q) st) = 200.
Proof.
  destruct (JsString.trim q) eqn:E.
  - rewrite get_search_trimmed, E. reflexivity.
  - rewrite (get_search_nonempty (QString q) q); [reflexivity|apply Query_toString_orEmpty|].
    by rewrite E.
Qed.

(** C4 (amended). For every query that has a text (a string, or a value
    whose [toString] returns) whose trimmed text [t] is not empty,
    [GET /search] answers 200 with exactly the lessons of the store that
    satisfy the disjunction for [t]: the subject holds a text that contains
    [t] as a case-insensitive literal substring, or the location does, or,
    only when [t] parses as a number, the price or the spaces hold that
    number, which is the double that [Number(t)] yields.  A field holds a
    value when it is the value or is an array with the value as an element. *)
Theorem get_search_answers (v : QueryValue) (s : string) (st : Store) :
  Query.toString (Query.orEmpty v) = Ok s ->
  JsString.trim s <> EmptyString ->
  answers (get_search v st) (JsString.trim s) st.
Proof.
  intros E Ht. set (t := JsString.trim s) in *. exists (Mongo.find_or
    ([Mongo.Regex "subject" {| RegExp.literal := t; RegExp.ignoreCase := true |};
      Mongo.Regex "location" {| RegExp.literal := t; RegExp.ignoreCase := true |}]
     ++ (if Number.isNaN (Number.ofString t) then []
         else [Mongo.Equals "price" (Number.ofString t);
               Mongo.Equals "spaces" (Number.ofString t)]))
    (lessons st)).
  split.
  - by apply (get_search_nonempty v s).
  - intros d. apply find_or_clauses.
Qed.

Lemma get_search_answers_witness :
  answers (get_search (QString " 90 ") Seed.store) (JsString.trim " 90 ") Seed.store.
Proof.
  apply (get_search_answers (QString " 90 ") " 90 " Seed.store); [reflexivity|discriminate].
Defined.

Lemma mathLesson_stored : mathLesson ∈ lessons Seed.store.
Proof. apply (list_elem_of_lookup_2 _ 0). reflexivity. Qed.

(** C4 as stated fails at the query ["Math "], which is not empty: the
    handler searches for ["Math"] and returns the Math lesson, none of whose
    fields contains the five characters ["Math "], and ["Math "] is not a
    number. *)
Lemma get_search_padded_query_counterexample :
  "Math " <> EmptyString /\
  ~ answers (get_search (QString "Math ") Seed.store) "Math " Seed.store.
Proof.
  split; [discriminate|]. intros H.
  assert (clauses mathLesson "Math ") as Hc.
  { apply (answers_transfer "Math " Seed.store); [discriminate|done| |].
    - apply mathLesson_stored.
    - left. apply matches_Regex. vm_compute. reflexivity. }
  destruct Hc as [Hc|[Hc|[Hn _]]].
  - apply matches_Regex in Hc. vm_compute in Hc. discriminate Hc.
  - apply matches_Regex in Hc. vm_compute in Hc. discriminate Hc.
  - apply Hn. vm_compute. reflexivity.
Qed.

End Search.

Example search_90_on_seed : subjects (get_search (QString "90") Seed.store) = ["Science"]%string.
Proof. vm_compute. reflexivity. Qed.
Example search_en_on_seed :
  subjects (get_search (QString " en ") Seed.store)
  = ["Math"; "Science"; "English"; "Coding"; "Art"; "French"]%string.
Proof. vm_compute. reflexivity. Qed.
Example search_5_on_seed : length (subjects (get_search (QString "5") Seed.store)) = 10.
Proof. vm_compute. reflexivity. Qed.
Example search_rounded_on_seed :
  subjects (get_search (QString "90.00000000000000001") Seed.store) = ["Science"]%string.
Proof. vm_compute. reflexivity. Qed.
Example search_repeated_parameter :
  Query.toString (QArray [QString "Math"; QString "Art"]) = Ok "Math,Art"%string /\
  subjects (get_search (QArray [QString "Ma"; QString "th"]) Seed.store) = [].
Proof. vm_compute. split; reflexivity. Qed.
Example search_bracketed_parameter :
  get_search (QObject [("subject", QString "Math")]%string) Seed.store
  = get_search (QString "[object Object]") Seed.store /\
  get_search (QObject [("toString", QString "x")]%string) Seed.store
  = fail 500 "Search failed".
Proof. split; reflexivity. Qed.
Example search_array_field :
  Mongo.matches {[ "subject" := VJson (JArr [JStr "Art"; JStr "Maths"]) ]}
                (Mongo.Regex "subject" {| RegExp.literal := "math"; RegExp.ignoreCase := true |})
  = true /\
  Mongo.matches {[ "price" := VJson (JArr [JArr [JNum (Finite 90 0)]]) ]}
                (Mongo.Equals "price" (Finite 90 0))
  = false.
Proof. vm_compute. split; reflexivity. Qed.

(** ** [POST /orders] *)

Section Orders.

Lemma check_items_status (l : list Json) (res : Response) :
  check_items l = Ok (Some res) -> status res = 400.
Proof.
  induction l as [|it rest IH]; simpl; [discriminate|].
  destruct (Js.getProp it "lessonId") as [lessonId|e]; simpl; [|discriminate].
  destruct (orElse _ _) as [[|]|e]; simpl; [|..|discriminate].
  - by intros [= <-].
  - destruct (Js.getProp it "quantity") as [quantity|e]; simpl; [|discriminate].
    destruct (negb (Js.isPositiveInteger quantity)); [by intros [= <-]|done].
Qed.

(** Validation reads neither the clock nor the store: a request is either
    turned down with one response that leaves every store as it is, or
    accepted in every store. *)
Lemma post_orders_cases (req_body : gmap string Json) :
  (exists res, status res <> 201 /\
     forall now st, post_orders req_body now st = (res, st)) \/
  (exists l, req_body !! "items" = Some (JArr l) /\
     forall now st, post_orders req_body now st = accepted req_body l now st).
Proof.
  unfold post_orders, post_orders_try, accepted.
  destruct (orElse (negb (Js.truthy (req_body !! "name"))) _) as [[|]|e]; simpl;
    [left; eexists; split; [|reflexivity]; simpl; lia | | left; eexists; split; [|reflexivity]; simpl; lia].
  destruct (orElse (negb (Js.truthy (req_body !! "phone"))) _) as [[|]|e]; simpl;
    [left; eexists; split; [|reflexivity]; simpl; lia | | left; eexists; split; [|reflexivity]; simpl; lia].
  destruct (req_body !! "items") as [[| | | |l|]|]; simpl;
    try (left; eexists; split; [|reflexivity]; simpl; lia).
  destruct (length l =? 0)%nat; simpl;
    [left; eexists; split; [|reflexivity]; simpl; lia|].
  destruct (check_items l) as [[res|]|e] eqn:E; simpl.
  - left. exists res. split; [|reflexivity]. rewrite (check_items_status l res E). lia.
  - right. exists l. split; reflexivity.
  - left; eexists; split; [|reflexivity]; simpl; lia.
Qed.

(** C8. Whenever [POST /orders] answers with status 400, the store, and so
    the order collection, is what it was before the request. *)
Theorem post_orders_400_no_effect (req_body : gmap string Json) (now : Z) (st : Store) :
  status (fst (post_orders req_body now st)) = 400 ->
  snd (post_orders req_body now st) = st /\
  orders (snd (post_orders req_body now st)) = orders st.
Proof.
  destruct (post_orders_cases req_body) as [[res [_ H]]|[l [_ H]]]; rewrite H.
  - done.
  - simpl. discriminate.
Qed.

Lemma post_orders_400_no_effect_witness :
  snd (post_orders noItems 0 Seed.store) = Seed.store /\
  orders (snd (post_orders noItems 0 Seed.store)) = orders Seed.store.
Proof. apply (post_orders_400_no_effect noItems 0 Seed.store). reflexivity. Defined.

(** C9. When a payload is accepted (201), submitting it again is accepted
    again: the two responses carry the two stored documents, whose
    identifiers differ, and the order collection has grown by exactly
    these two documents. *)
Theorem post_orders_twice (req_body : gmap string Json) (now1 now2 : Z) (st : Store) :
  status (fst (post_orders req_body now1 st)) = 201 ->
  exists (d1 d2 : Doc) (id1 id2 : ObjectId) (st1 st2 : Store),
    post_orders req_body now1 st = ({| status := 201; body := DocBody d1 |}, st1) /\
    post_orders req_body now2 st1 = ({| status := 201; body := DocBody d2 |}, st2) /\
    d1 !! "_id" = Some (VObjectId id1) /\
    d2 !! "_id" = Some (VObjectId id2) /\
    id1 <> id2 /\
    orders st2 = orders st ++ [d1; d2].
Proof.
  destruct (post_orders_cases req_body) as [[res [Hs H]]|[l [_ H]]].
  - rewrite H. simpl. intros E. by rewrite E in Hs.
  - intros _.
    set (st1 := snd (accepted req_body l now1 st)).
    exists (<["_id" := VObjectId (nextId st)]>
              (orderDoc (req_body !! "name") (req_body !! "phone") l now1)),
           (<["_id" := VObjectId (nextId st1)]>
              (orderDoc (req_body !! "name") (req_body !! "phone") l now2)),
           (nextId st), (nextId st1), st1, (snd (accepted req_body l now2 st1)).
    rewrite !H. split; [reflexivity|]. split; [reflexivity|].
    rewrite !lookup_insert_eq. split; [done|]. split; [done|].
    simpl. split; [lia|]. by rewrite <- app_assoc.
Qed.

Lemma post_orders_twice_witness :
  exists (d1 d2 : Doc) (id1 id2 : ObjectId) (st1 st2 : Store),
    post_orders oneSeat 10 Seed.store = ({| status := 201; body := DocBody d1 |}, st1) /\
    post_orders oneSeat 20 st1 = ({| status := 201; body := DocBody d2 |}, st2) /\
    d1 !! "_id" = Some (VObjectId id1) /\
    d2 !! "_id" = Some (VObjectId id2) /\
    id1 <> id2 /\
    orders st2 = orders Seed.store ++ [d1; d2].
Proof. apply (post_orders_twice oneSeat 10 20 Seed.store). reflexivity. Defined.

(** The rejections listed among the spec's testable properties. *)
Example post_orders_name_with_digits (now : Z) (st : Store) :
  post_orders {[ "name" := JStr "John123"; "phone" := JStr "07123456789" ]} now st
  = (fail 400 "Invalid name", st).
Proof. reflexivity. Qed.

Example post_orders_phone_with_letters (now : Z) (st : Store) :
  post_orders {[ "name" := JStr "John Doe"; "phone" := JStr "abc" ]} now st
  = (fail 400 "Invalid phone", st).
Proof. reflexivity. Qed.

Example post_orders_no_items (now : Z) (st : Store) :
  post_orders noItems now st = (fail 400 "No items in order", st).
Proof. reflexivity. Qed.

Example post_orders_quantity_zero (now : Z) (st : Store) :
  post_orders {[ "name" := JStr "John Doe"; "phone" := JStr "07123456789";
                 "items" := JArr [JObj [("lessonId", JStr "64b0c0ffee0123456789abcd");
                                        ("quantity", JNum (Finite 0 0))]] ]} now st
  = (fail 400 "Invalid quantity", st).
Proof. reflexivity. Qed.

Example post_orders_missing_lessonId (now : Z) (st : Store) :
  post_orders {[ "name" := JStr "John Doe"; "phone" := JStr "07123456789";
                 "items" := JArr [JObj [("quantity", JNum (Finite 1 0))]] ]} now st
  = (fail 400 "Invalid lessonId", st).
Proof. reflexivity. Qed.

End Orders.

(** ** [POST /orders]: an item whose [lessonId] does not parse *)

Section OrdersDefect.

(** [createFromHexString] throws on a string that is not 24 hexadecimal
    digits instead of returning a value that [Number.isNaN] could detect,
    so the test [Number.isNaN(ObjectId.createFromHexString(...))] never
    holds: the loop answers ["Invalid lessonId"] for a missing (falsy)
    [lessonId] only. *)
Lemma invalid_lessonId_requires_falsy (l : list Json) :
  check_items l = Ok (Some (fail 400 "Invalid lessonId")) ->
  exists it v, it ∈ l /\ Js.getProp it "lessonId" = Ok v /\ Js.truthy v = false.
Proof.
  induction l as [|it rest IH]; simpl; [discriminate|].
  destruct (Js.getProp it "lessonId") as [v|e] eqn:Ev; simpl; [|discriminate].
  destruct (Js.truthy v) eqn:Et; simpl.
  - destruct (ObjectId.createFromHexString v) as [oid|e]; simpl; [|discriminate].
    destruct (Js.getProp it "quantity") as [quantity|e]; simpl; [|discriminate].
    destruct (negb (Js.isPositiveInteger quantity)); [discriminate|].
    intros H. destruct (IH H) as [it' [v' [Hin H']]].
    exists it', v'. split; [by apply list_elem_of_further|done].
  - intros _. exists it, v. split; [apply list_elem_of_here|done].
Qed.

Lemma check_items_app (passed l : list Json) :
  check_items passed = Ok None -> check_items (passed ++ l) = check_items l.
Proof.
  induction passed as [|it rest IH]; simpl; [done|].
  destruct (Js.getProp it "lessonId") as [v|e]; simpl; [|discriminate].
  destruct (orElse _ _) as [[|]|e]; simpl; [discriminate| |discriminate].
  destruct (Js.getProp it "quantity") as [quantity|e]; simpl; [|discriminate].
  destruct (negb (Js.isPositiveInteger quantity)); [discriminate|done].
Qed.

(** After any number of accepted items, an item with a present [lessonId]
    that does not parse makes the loop throw. *)
Lemma check_items_unparsable (passed rest : list Json) (it : Json)
      (v : option Json) (e : Exception) :
  check_items passed = Ok None ->
  Js.getProp it "lessonId" = Ok v -> Js.truthy v = true ->
  ObjectId.createFromHexString v = Throw e ->
  check_items (passed ++ it :: rest) = Throw e.
Proof.
  intros Hp Hv Ht He. rewrite (check_items_app _ _ Hp). simpl.
  rewrite Hv. simpl. rewrite Ht. simpl. by rewrite He.
Qed.

(** C1 (the handler at the failing input). The request passes the name,
    phone and items checks and its item has a present [lessonId] that does
    not parse; the answer is the server error 500, not the client error 400
    ["Invalid lessonId"].  No order is stored. *)
Theorem post_orders_unparsable_lessonId (now : Z) (st : Store) :
  post_orders unparsableLessonId now st = (fail 500 "Failed to create order", st).
Proof. reflexivity. Qed.

(** C2 (the handler at the failing input). The first failing check is the
    [lessonId] of the second item; the answer is 500, not 400
    ["Invalid lessonId"]. *)
Theorem post_orders_second_item_unparsable (now : Z) (st : Store) :
  post_orders secondItemUnparsable now st = (fail 500 "Failed to create order", st).
Proof. reflexivity. Qed.

End OrdersDefect.

(** ** [POST /orders]: the order of the checks *)

Section OrdersValidation.

Lemma name_check (v : option Json) :
  stringOrAbsent v ->
  orElse (negb (Js.truthy v))
         (s ← Js.ToStringU v; Ok (negb (JsString.test_letters_spaces s)))
  = Ok (negb (specName v)).
Proof. intros [->|[[|c s] ->]]; reflexivity. Qed.

Lemma phone_check (v : option Json) :
  stringOrAbsent v ->
  orElse (negb (Js.truthy v))
         (s ← Js.ToStringU v; Ok (negb (JsString.test_digits s)))
  = Ok (negb (specPhone v)).
Proof. intros [->|[[|c s] ->]]; reflexivity. Qed.

Lemma getProp_field (it : Json) (k : string) (v : option Json) :
  Js.getProp it k = Ok v -> v = field it k.
Proof. destruct it; simpl; congruence. Qed.

Lemma createFromHexString_Ok (v : option Json) (oid : ObjectId) :
  ObjectId.createFromHexString v = Ok oid -> specLessonId v = true.
Proof.
  destruct v as [[| | |s| |]|]; simpl; try discriminate.
  by destruct (ObjectId.isHex24 s).
Qed.

Lemma falsy_not_lessonId (v : option Json) : Js.truthy v = false -> specLessonId v = false.
Proof.
  destruct v as [[| | |[|c s]| |]|]; simpl; try done.
Qed.

(** Whenever the loop ends without an exception, its verdict is the spec's. *)
Lemma check_items_spec (l : list Json) (r : option Response) :
  check_items l = Ok r -> r = fail 400 <$> specItems l.
Proof.
  revert r. induction l as [|it rest IH]; intros r; simpl; [by intros [= <-]|].
  destruct (Js.getProp it "lessonId") as [v|e] eqn:Ev; simpl; [|discriminate].
  apply getProp_field in Ev as ->.
  destruct (Js.truthy (field it "lessonId")) eqn:Et; simpl.
  - destruct (ObjectId.createFromHexString _) as [oid|e] eqn:Eo; simpl; [|discriminate].
    rewrite (createFromHexString_Ok _ _ Eo). simpl.
    destruct (Js.getProp it "quantity") as [q|e] eqn:Eq; simpl; [|discriminate].
    apply getProp_field in Eq as ->.
    destruct (negb (Js.isPositiveInteger _)); [by intros [= <-]|]. apply IH.
  - rewrite (falsy_not_lessonId _ Et). simpl. by intros [= <-].
Qed.

(** On a payload whose name and phone are strings (or absent), whenever the
    handler does not end in its [catch] branch, its answer is that of the
    first failing check in the order name, phone, items, then per item
    [lessonId] before [quantity]; when every check passes the order is
    stored. *)
Lemma post_orders_first_failure (req_body : gmap string Json) (now : Z) (st : Store) :
  stringOrAbsent (req_body !! "name") ->
  stringOrAbsent (req_body !! "phone") ->
  status (fst (post_orders req_body now st)) <> 500 ->
  match specValidate req_body, req_body !! "items" with
  | Some e, _ => post_orders req_body now st = (fail 400 e, st)
  | None, Some (JArr l) => post_orders req_body now st = accepted req_body l now st
  | None, _ => False
  end.
Proof.
  intros Hn Hp. unfold post_orders, post_orders_try, specValidate, accepted.
  rewrite (name_check _ Hn), (phone_check _ Hp). simpl.
  destruct (negb (specName _)); simpl; [done|].
  destruct (negb (specPhone _)); simpl; [done|].
  destruct (req_body !! "items") as [[| | | |l|]|]; simpl; try done.
  destruct (length l =? 0)%nat; [done|].
  destruct (check_items l) as [r|e] eqn:E; simpl.
  - apply check_items_spec in E as ->. intros _.
    by destruct (specItems l).
  - done.
Qed.

(** The defect at the level of the handler: a payload with a good name and
    phone whose items are accepted up to an item with a present [lessonId]
    that does not parse is answered 500, and nothing is stored. *)
Lemma unparsable_lessonId_throws (req_body : gmap string Json) (now : Z) (st : Store)
      (passed rest : list Json) (it : Json) (v : option Json) (e : Exception) :
  specName (req_body !! "name") = true ->
  specPhone (req_body !! "phone") = true ->
  req_body !! "items" = Some (JArr (passed ++ it :: rest)) ->
  check_items passed = Ok None ->
  Js.getProp it "lessonId" = Ok v -> Js.truthy v = true ->
  ObjectId.createFromHexString v = Throw e ->
  post_orders req_body now st = (fail 500 "Failed to create order", st).
Proof.
  intros Hn Hp Hi Hpassed Hv Ht He.
  assert (stringOrAbsent (req_body !! "name")) as Sn.
  { right. destruct (req_body !! "name") as [[| | |s| |]|]; try discriminate. by exists s. }
  assert (stringOrAbsent (req_body !! "phone")) as Sp.
  { right. destruct (req_body !! "phone") as [[| | |s| |]|]; try discriminate. by exists s. }
  unfold post_orders, post_orders_try.
  rewrite (name_check _ Sn), (phone_check _ Sp), Hn, Hp, Hi. simpl.
  rewrite (check_items_unparsable passed rest it v e Hpassed Hv Ht He).
  by destruct passed.
Qed.

End OrdersValidation.

(** ** [PUT /lessons/:id] *)

(** Unfolds the update handlers down to the body of their [try] block, on a
    store that answers. *)
Ltac unfold_put :=
  unfold put_lessons_id, put_lessons_id_fallback, put_lessons_id_with,
    put_lessons_id_fallback_with, put_lessons_id_try, put_lessons_id_fallback_try,
    up, Mongo.call.

Section Update.

(** The loop over a list of keys copies exactly the body's properties with
    these keys. *)
Lemma pick_loop_lookup (req_body acc : gmap string Json) (ks : list string) (k : string) :
  foldl (fun set k => match req_body !! k with
                      | Some v => <[k := v]> set
                      | None => set
                      end) acc ks !! k
  = if decide (k ∈ ks)
    then match req_body !! k with Some v => Some v | None => acc !! k end
    else acc !! k.
Proof.
  revert acc. induction ks as [|a ks IH]; intros acc; simpl.
  - done.
  - rewrite IH. destruct (decide (k = a)) as [->|Hne].
    + rewrite (decide_True (P := a ∈ a :: ks)) by apply elem_of_cons, or_introl, eq_refl.
      destruct (req_body !! a) as [v|] eqn:E.
      * rewrite lookup_insert_eq. by destruct (decide (a ∈ ks)).
      * by destruct (decide (a ∈ ks)).
    + assert ((match req_body !! a with
               | Some v => <[a := v]> acc
               | None => acc
               end) !! k = acc !! k) as ->.
      { destruct (req_body !! a); [by rewrite lookup_insert_ne|done]. }
      destruct (decide (k ∈ ks)) as [Hin|Hnin].
      * rewrite decide_True; [done|]. apply elem_of_cons. by right.
      * rewrite decide_False; [done|]. intros [?|?]%elem_of_cons; done.
Qed.

Lemma pick_lookup (req_body : gmap string Json) (k : string) :
  pick req_body !! k = if decide (k ∈ allowed) then req_body !! k else None.
Proof.
  unfold pick. rewrite pick_loop_lookup, lookup_empty.
  destruct (decide (k ∈ allowed)); [|done]. by destruct (req_body !! k).
Qed.

(** [set] depends on the allow-listed properties only. *)
Lemma pick_ext (b1 b2 : gmap string Json) :
  (forall k, k ∈ allowed -> b1 !! k = b2 !! k) -> pick b1 = pick b2.
Proof.
  intros H. apply map_eq. intros k. rewrite !pick_lookup.
  destruct (decide (k ∈ allowed)); auto.
Qed.

Lemma pick_size_0 (req_body : gmap string Json) :
  (size (pick req_body) =? 0)%nat = true <-> forall k, k ∈ allowed -> req_body !! k = None.
Proof.
  rewrite Nat.eqb_eq, map_size_empty_iff. split.
  - intros E k Hk. rewrite <- (lookup_empty (M := gmap string) (A := Json) k), <- E, pick_lookup.
    by rewrite decide_True.
  - intros H. apply map_eq. intros k. rewrite pick_lookup, lookup_empty.
    destruct (decide (k ∈ allowed)); auto.
Qed.

Lemma pick_size_pos (req_body : gmap string Json) :
  (exists k, k ∈ allowed /\ is_Some (req_body !! k)) ->
  (size (pick req_body) =? 0)%nat = false.
Proof.
  intros [k [Hk [v Hv]]]. apply not_true_iff_false. intros H.
  rewrite pick_size_0 in H. rewrite (H k Hk) in Hv. discriminate.
Qed.

Lemma findOneAndUpdate_none (v : Value) (set : Doc) (coll : list Doc) :
  (forall d, d ∈ coll -> Mongo.hasId v d = false) ->
  Mongo.findOneAndUpdate v set coll = (None, coll).
Proof.
  induction coll as [|d r IH]; intros H; simpl; [done|].
  rewrite (H d) by apply list_elem_of_here.
  rewrite IH; [done|]. intros d' Hd'. apply H. by apply list_elem_of_further.
Qed.

(** The update reaches the first document that has the identifier, at
    position [i], and no other document. *)
Lemma findOneAndUpdate_some (v : Value) (set : Doc) (coll : list Doc) :
  (exists d, d ∈ coll /\ Mongo.hasId v d = true) ->
  exists (i : nat) (old : Doc),
    coll !! i = Some old /\ Mongo.hasId v old = true /\
    (forall j d, j < i -> coll !! j = Some d -> Mongo.hasId v d = false) /\
    Mongo.findOneAndUpdate v set coll = (Some (set ∪ old), <[i := set ∪ old]> coll).
Proof.
  induction coll as [|d r IH]; intros [d' [Hin Hid]].
  - by apply elem_of_nil in Hin.
  - simpl. destruct (Mongo.hasId v d) eqn:E.
    + exists 0, d. repeat split; try done. intros j ? Hj. lia.
    + apply elem_of_cons in Hin as [->|Hin]; [congruence|].
      destruct IH as [i [old [Hl [Ho [Hfirst Hr]]]]]; [by exists d'|].
      exists (S i), old. rewrite Hr. repeat split; try done.
      intros [|j] d0 Hj Hd0; simpl in Hd0; [congruence|].
      apply (Hfirst j); [lia|done].
Qed.

Lemma withLessons_same (st : Store) : withLessons st (lessons st) = st.
Proof. by destruct st. Qed.

(** A field of the updated document. *)
Lemma updated_lookup (req_body : gmap string Json) (old : Doc) (k : string) :
  ((VJson <$> pick req_body) ∪ old) !! k
  = if decide (k ∈ allowed /\ is_Some (req_body !! k))
    then VJson <$> req_body !! k
    else old !! k.
Proof.
  rewrite lookup_union, lookup_fmap, pick_lookup.
  destruct (decide (k ∈ allowed)) as [Hk|Hk].
  - destruct (req_body !! k) as [v|] eqn:E; simpl.
    + rewrite decide_True; [|by eauto]. by destruct (old !! k).
    + rewrite decide_False; [|by intros [_ [? ?]]]. by destruct (old !! k).
  - rewrite decide_False; [|by intros [? _]]. simpl. by destruct (old !! k).
Qed.

End Update.

Section UpdateClaims.

(** What both versions of the handler do once the identifier is valid, an
    allow-listed field is named and a lesson has the identifier. *)
Lemma put_lessons_id_found (id : string) (req_body : gmap string Json) (st : Store)
      (oid : ObjectId) :
  ObjectId.new id = Ok oid ->
  (exists k, k ∈ allowed /\ is_Some (req_body !! k)) ->
  (exists d, d ∈ lessons st /\ Mongo.hasId (VObjectId oid) d = true) ->
  exists (i : nat) (old : Doc),
    lessons st !! i = Some old /\ Mongo.hasId (VObjectId oid) old = true /\
    let new := (VJson <$> pick req_body) ∪ old in
    put_lessons_id id req_body st =
      ({| status := 200; body := DocBody new |}, withLessons st (<[i := new]> (lessons st))) /\
    put_lessons_id_fallback id req_body st = put_lessons_id id req_body st.
Proof.
  intros Hid Hk Hd.
  destruct (findOneAndUpdate_some (VObjectId oid) (VJson <$> pick req_body) (lessons st) Hd)
    as [i [old [Hl [Ho [_ Hr]]]]].
  exists i, old. split; [done|]. split; [done|].
  unfold_put.
  rewrite Hid, (pick_size_pos req_body Hk), Hr. done.
Qed.

(** C3. For a request with a valid identifier that names at least one
    allow-listed field, on a store where a lesson has that identifier, the
    answer is 200 with the updated lesson: each allow-listed field of the
    body has the body's value, every other field has the value it had, and
    the document replaces the old one in place (no other lesson and no
    order changes).  Both versions of the handler agree. *)
Theorem put_lessons_id_updates_exactly (id : string) (req_body : gmap string Json)
        (st : Store) (oid : ObjectId) :
  ObjectId.new id = Ok oid ->
  (exists k, k ∈ allowed /\ is_Some (req_body !! k)) ->
  (exists d, d ∈ lessons st /\ Mongo.hasId (VObjectId oid) d = true) ->
  exists (i : nat) (old new : Doc),
    lessons st !! i = Some old /\ Mongo.hasId (VObjectId oid) old = true /\
    put_lessons_id id req_body st =
      ({| status := 200; body := DocBody new |}, withLessons st (<[i := new]> (lessons st))) /\
    put_lessons_id_fallback id req_body st = put_lessons_id id req_body st /\
    (forall k, k ∈ allowed -> is_Some (req_body !! k) -> new !! k = VJson <$> req_body !! k) /\
    (forall k, ~ (k ∈ allowed /\ is_Some (req_body !! k)) -> new !! k = old !! k).
Proof.
  intros Hid Hk Hd.
  destruct (put_lessons_id_found id req_body st oid Hid Hk Hd)
    as [i [old [Hl [Ho [H1 H2]]]]].
  exists i, old, ((VJson <$> pick req_body) ∪ old).
  repeat split; try done.
  - intros k Ha Hs. rewrite updated_lookup. by rewrite decide_True.
  - intros k Hn. rewrite updated_lookup. by rewrite decide_False.
Qed.

Lemma put_lessons_id_updates_exactly_witness :
  exists (i : nat) (old new : Doc),
    lessons Seed.store !! i = Some old /\ Mongo.hasId (VObjectId 1%N) old = true /\
    put_lessons_id "000000000000000000000001" threeSpaces Seed.store =
      ({| status := 200; body := DocBody new |},
       withLessons Seed.store (<[i := new]> (lessons Seed.store))) /\
    put_lessons_id_fallback "000000000000000000000001" threeSpaces Seed.store
    = put_lessons_id "000000000000000000000001" threeSpaces Seed.store /\
    (forall k, k ∈ allowed -> is_Some (threeSpaces !! k) -> new !! k = VJson <$> threeSpaces !! k) /\
    (forall k, ~ (k ∈ allowed /\ is_Some (threeSpaces !! k)) -> new !! k = old !! k).
Proof.
  apply (put_lessons_id_updates_exactly "000000000000000000000001" threeSpaces Seed.store 1%N).
  - reflexivity.
  - exists "spaces"%string. split; [|by eexists].
    apply list_elem_of_In. simpl. tauto.
  - exists (<["_id" := VObjectId 1%N]> (VJson <$> Seed.lesson "Science" "Colindale" 90 5)).
    split; [|vm_compute; reflexivity].
    apply (list_elem_of_lookup_2 _ 1). reflexivity.
Defined.

(** C6 as stated fails when the identifier is not valid: the identifier is
    checked first, and the answer is ["Invalid id"] whatever the body. *)
Lemma put_lessons_id_no_fields_counterexample :
  (forall k, k ∈ allowed -> onlyFoo !! k = None) /\
  put_lessons_id "not-an-id" onlyFoo Seed.store
  <> (fail 400 "No valid fields to update", Seed.store) /\
  put_lessons_id "not-an-id" onlyFoo Seed.store = (fail 400 "Invalid id", Seed.store).
Proof.
  assert (put_lessons_id "not-an-id" onlyFoo Seed.store = (fail 400 "Invalid id", Seed.store))
    as E by reflexivity.
  split; [|split].
  - apply pick_size_0. vm_compute. reflexivity.
  - rewrite E. by intros [=].
  - exact E.
Qed.

(** C6 (amended). Body fields outside the allow-list are ignored by every
    request: the answer and the resulting store depend on the allow-listed
    fields of the body only.  When the identifier is valid and the body
    names no allow-listed field, the answer is 400
    ["No valid fields to update"] and the store is unchanged.  In both
    versions of the handler. *)
Theorem put_lessons_id_allow_list (id : string) (req_body : gmap string Json) (st : Store) :
  (forall other : gmap string Json,
      (forall k, k ∈ allowed -> other !! k = req_body !! k) ->
      put_lessons_id id other st = put_lessons_id id req_body st /\
      put_lessons_id_fallback id other st = put_lessons_id_fallback id req_body st) /\
  (forall oid, ObjectId.new id = Ok oid ->
     (forall k, k ∈ allowed -> req_body !! k = None) ->
     put_lessons_id id req_body st = (fail 400 "No valid fields to update", st) /\
     put_lessons_id_fallback id req_body st = (fail 400 "No valid fields to update", st)).
Proof.
  split.
  - intros other H. unfold_put.
    by rewrite (pick_ext other req_body H).
  - intros oid Hid H. apply pick_size_0 in H.
    unfold_put. by rewrite Hid, H.
Qed.

Lemma put_lessons_id_allow_list_witness :
  put_lessons_id "000000000000000000000001" onlyFoo Seed.store
  = (fail 400 "No valid fields to update", Seed.store) /\
  put_lessons_id "000000000000000000000001" threeSpaces Seed.store
  = put_lessons_id "000000000000000000000001" {[ "spaces" := JNum (Finite 3 0) ]} Seed.store.
Proof.
  split.
  - destruct (put_lessons_id_allow_list "000000000000000000000001" onlyFoo Seed.store)
      as [_ Hnone].
    destruct (Hnone 1%N) as [H400 _]; [reflexivity| |exact H400].
    apply pick_size_0. vm_compute. reflexivity.
  - destruct (put_lessons_id_allow_list "000000000000000000000001"
                {[ "spaces" := JNum (Finite 3 0) ]} Seed.store)
      as [Hignored _].
    destruct (Hignored threeSpaces) as [Hsame _]; [|exact Hsame].
    intros k Hk. apply list_elem_of_In in Hk. simpl in Hk.
    destruct Hk as [<-|[<-|[<-|[<-|[<-|[]]]]]]; vm_compute; reflexivity.
Defined.

Lemma seed_has_no_255 (d : Doc) :
  d ∈ lessons Seed.store -> Mongo.hasId (VObjectId 255%N) d = false.
Proof.
  intros Hd%list_elem_of_In.
  assert (forallb (fun d => negb (Mongo.hasId (VObjectId 255%N) d)) (lessons Seed.store) = true)
    as H by (vm_compute; reflexivity).
  rewrite forallb_forall in H. apply negb_true_iff. by apply H.
Qed.

(** C7 as stated fails for a valid identifier that matches no lesson when
    the body names no allow-listed field: the field check comes before the
    lookup, and the answer is 400, not 404. *)
Lemma put_lessons_id_not_found_counterexample :
  ObjectId.new "0000000000000000000000ff" = Ok 255%N /\
  (forall d, d ∈ lessons Seed.store -> Mongo.hasId (VObjectId 255%N) d = false) /\
  put_lessons_id "0000000000000000000000ff" onlyFoo Seed.store
  <> (fail 404 "Lesson not found", Seed.store) /\
  put_lessons_id "0000000000000000000000ff" onlyFoo Seed.store
  = (fail 400 "No valid fields to update", Seed.store).
Proof.
  assert (put_lessons_id "0000000000000000000000ff" onlyFoo Seed.store
          = (fail 400 "No valid fields to update", Seed.store)) as E.
  { unfold_put.
    replace (size (pick onlyFoo) =? 0)%nat with true by (vm_compute; reflexivity).
    reflexivity. }
  split; [reflexivity|]. split; [|split].
  - apply seed_has_no_255.
  - rewrite E. by intros [=].
  - exact E.
Qed.

(** C7 (amended). An identifier that does not parse is answered 400
    ["Invalid id"].  A valid identifier that no lesson has is answered 404
    ["Lesson not found"] when the body names at least one allow-listed
    field (in the second version: when, moreover, no lesson has the raw
    string as its identifier).  In each case the store is unchanged. *)
Theorem put_lessons_id_rejections (id : string) (req_body : gmap string Json) (st : Store) :
  (forall e, ObjectId.new id = Throw e ->
     put_lessons_id id req_body st = (fail 400 "Invalid id", st) /\
     put_lessons_id_fallback id req_body st = (fail 400 "Invalid id", st)) /\
  (forall oid, ObjectId.new id = Ok oid ->
     (exists k, k ∈ allowed /\ is_Some (req_body !! k)) ->
     (forall d, d ∈ lessons st -> Mongo.hasId (VObjectId oid) d = false) ->
     put_lessons_id id req_body st = (fail 404 "Lesson not found", st) /\
     ((forall d, d ∈ lessons st -> Mongo.hasId (VJson (JStr id)) d = false) ->
      put_lessons_id_fallback id req_body st = (fail 404 "Lesson not found", st))).
Proof.
  split.
  - intros e He. unfold_put. by rewrite He.
  - intros oid Hid Hk Hno. unfold_put.
    rewrite Hid, (pick_size_pos req_body Hk), (findOneAndUpdate_none _ _ _ Hno). simpl.
    rewrite withLessons_same. split; [done|].
    intros Hno'. rewrite (findOneAndUpdate_none (VJson (JStr id)) _ _ Hno'). simpl.
    by rewrite withLessons_same.
Qed.

Lemma put_lessons_id_rejections_witness :
  put_lessons_id "not-an-id" threeSpaces Seed.store = (fail 400 "Invalid id", Seed.store) /\
  put_lessons_id "0000000000000000000000ff" threeSpaces Seed.store
  = (fail 404 "Lesson not found", Seed.store).
Proof.
  split.
  - destruct (put_lessons_id_rejections "not-an-id" threeSpaces Seed.store) as [Hinvalid _].
    destruct (Hinvalid BSONError) as [H400 _]; [reflexivity|exact H400].
  - destruct (put_lessons_id_rejections "0000000000000000000000ff" threeSpaces Seed.store)
      as [_ Hmissing].
    destruct (Hmissing 255%N) as [H404 _]; [| | |exact H404].
    + reflexivity.
    + exists "spaces"%string. split; [|by eexists].
      apply list_elem_of_In. simpl. tauto.
    + apply seed_has_no_255.
Defined.

End UpdateClaims.

(** ** [PUT /lessons/:id]: the second version's retry by string *)

Section UpdateFallback.

(** When no lesson has the typed identifier but one has the raw string as its
    [_id], the second version updates that lesson, with the same frame. *)
Lemma put_lessons_id_fallback_by_string (id : string) (req_body : gmap string Json)
      (st : Store) (oid : ObjectId) :
  ObjectId.new id = Ok oid ->
  (exists k, k ∈ allowed /\ is_Some (req_body !! k)) ->
  (forall d, d ∈ lessons st -> Mongo.hasId (VObjectId oid) d = false) ->
  (exists d, d ∈ lessons st /\ Mongo.hasId (VJson (JStr id)) d = true) ->
  exists (i : nat) (old new : Doc),
    lessons st !! i = Some old /\ Mongo.hasId (VJson (JStr id)) old = true /\
    put_lessons_id_fallback id req_body st =
      ({| status := 200; body := DocBody new |}, withLessons st (<[i := new]> (lessons st))) /\
    put_lessons_id id req_body st = (fail 404 "Lesson not found", st) /\
    (forall k, new !! k = if decide (k ∈ allowed /\ is_Some (req_body !! k))
                          then VJson <$> req_body !! k else old !! k).
Proof.
  intros Hid Hk Hno Hd.
  destruct (findOneAndUpdate_some (VJson (JStr id)) (VJson <$> pick req_body) (lessons st) Hd)
    as [i [old [Hl [Ho [_ Hr]]]]].
  exists i, old, ((VJson <$> pick req_body) ∪ old).
  split; [done|]. split; [done|].
  unfold_put.
  rewrite Hid, (pick_size_pos req_body Hk), (findOneAndUpdate_none _ _ _ Hno).
  cbn [mbind Exc_bind]. rewrite Hr. cbn [mbind Exc_bind].
  rewrite withLessons_same. repeat split. apply updated_lookup.
Qed.

End UpdateFallback.

(** ** POSIX paths on concrete inputs *)

Example join_images : Path.join ["/var/app/current"; "images"]%string = "/var/app/current/images"%string.
Proof. reflexivity. Qed.
Example join_dots : Path.join ["/var/app/./current//"; "images"]%string = "/var/app/current/images"%string.
Proof. reflexivity. Qed.
Example join_up : Path.join ["/var/app/images"; "../server.js"]%string = "/var/app/server.js"%string.
Proof. reflexivity. Qed.
Example join_above_root : Path.join ["/a"; "../../../etc/"]%string = "/etc/"%string.
Proof. reflexivity. Qed.
Example join_relative : Path.join ["a/.."; "../b"; ""]%string = "../b"%string.
Proof. reflexivity. Qed.
Example normalize_empty : Path.normalize "./" = "./"%string /\ Path.normalize "a/.." = "."%string.
Proof. split; reflexivity. Qed.

(** ** [GET /search]: further properties *)

Section SearchMore.
Import JsString.

Lemma escape_plain (q : string) :
  all (fun c => negb (RegExp.isSyntaxChar c)) q = true -> RegExp.escape q = q.
Proof.
  induction q as [|c r IH]; simpl; [done|].
  intros [Hc Hr]%andb_prop. apply negb_true_iff in Hc. rewrite Hc, IH; done.
Qed.

(** X1. The escaped query, read as a pattern, is the query itself: no query makes
    [new RegExp] throw or turns into an operator, two queries never give the
    same pattern, and a query without syntax characters is left as it is. *)
Theorem escape_reads_back (q : string) :
  RegExp.literalOf (RegExp.escape q) = Ok q /\
  (forall q', RegExp.escape q = RegExp.escape q' -> q = q') /\
  (all (fun c => negb (RegExp.isSyntaxChar c)) q = true -> RegExp.escape q = q).
Proof.
  split; [apply literalOf_escape|]. split; [|apply escape_plain].
  intros q' E. apply (f_equal RegExp.literalOf) in E.
  rewrite !literalOf_escape in E. by injection E.
Qed.

Lemma filter_sublist {A : Type} (f : A -> bool) (l : list A) : sublist (List.filter f l) l.
Proof.
  induction l as [|x l IH]; simpl; [constructor|].
  destruct (f x); by constructor.
Qed.

(** X2. Whatever the query (a string, an array, an object), the answer is
    either 200 with lessons of the store in store order (nothing is
    invented, repeated or reordered) or 500 ["Search failed"]; it is the
    latter whenever taking the text of the query throws, as for an object
    query that has a property [toString]. *)
Theorem get_search_sublist (v : QueryValue) (st : Store) :
  ((exists l, get_search v st = {| status := 200; body := DocsBody l |} /\
              sublist l (lessons st)) \/
   get_search v st = fail 500 "Search failed") /\
  (forall e, Query.toString (Query.orEmpty v) = Throw e ->
             get_search v st = fail 500 "Search failed").
Proof.
  destruct (Query.toString (Query.orEmpty v)) as [s|e] eqn:E.
  - split; [left|discriminate].
    destruct (trim s) eqn:Et.
    + exists (lessons st). split; [|done].
      rewrite (get_search_text v s st E), Et. reflexivity.
    + eexists. split.
      * apply (get_search_nonempty v s st E). by rewrite Et.
      * apply filter_sublist.
  - split; [right|intros e' _]; by apply (get_search_throws v e).
Qed.

Lemma matchHere_lower (p p' s : string) :
  lower p = lower p' -> RegExp.matchHere true p s = RegExp.matchHere true p' s.
Proof.
  revert p' s. induction p as [|a p IH]; intros [|a' p'] s E; simpl in E; try discriminate.
  - done.
  - injection E as Ea Ep. destruct s as [|b s]; simpl; [done|].
    unfold RegExp.fold. by rewrite Ea, (IH p' s Ep).
Qed.

Lemma search_lower (p p' s : string) :
  lower p = lower p' -> RegExp.search true p s = RegExp.search true p' s.
Proof.
  intros E. induction s as [|c r IH]; simpl.
  - by rewrite (matchHere_lower p p' _ E).
  - by rewrite (matchHere_lower p p' _ E), IH.
Qed.

Lemma satisfies_lower (f p p' : string) (j : Json) :
  lower p = lower p' ->
  Mongo.satisfies (Mongo.Regex f {| RegExp.literal := p; RegExp.ignoreCase := true |}) j
  = Mongo.satisfies (Mongo.Regex f {| RegExp.literal := p'; RegExp.ignoreCase := true |}) j.
Proof. intros E. destruct j; simpl; try done. by apply search_lower. Qed.

Lemma matches_lower (d : Doc) (f p p' : string) :
  lower p = lower p' ->
  Mongo.matches d (Mongo.Regex f {| RegExp.literal := p; RegExp.ignoreCase := true |})
  = Mongo.matches d (Mongo.Regex f {| RegExp.literal := p'; RegExp.ignoreCase := true |}).
Proof.
  intros E. unfold Mongo.matches. cbn [Mongo.fieldOf].
  destruct (d !! f) as [[j| |]|]; try done.
  destruct j as [| | | |l|]; try by apply satisfies_lower.
  induction l as [|x l IH]; [done|].
  cbn [existsb]. by rewrite IH, (satisfies_lower f p p' x E).
Qed.

Lemma ofString_trim (q : string) : Number.ofString (trim q) = Number.ofString q.
Proof. unfold Number.ofString. by rewrite trim_idempotent. Qed.

(** X3. Letter case in a query that is not a number does not matter: two such
    queries that agree up to case (and surrounding white space) get the same
    answer. *)
Theorem get_search_ignores_case (q1 q2 : string) (st : Store) :
  lower (trim q1) = lower (trim q2) ->
  Number.ofString q1 = NaN -> Number.ofString q2 = NaN ->
  get_search (QString q1) st = get_search (QString q2) st.
Proof.
  intros E N1 N2.
  assert (forall q, Number.ofString q = NaN -> trim q <> EmptyString) as Hne.
  { intros q Hq Ht. unfold Number.ofString in Hq. rewrite Ht in Hq. discriminate. }
  rewrite (get_search_nonempty (QString q1) q1 st (Query_toString_orEmpty q1) (Hne q1 N1)).
  rewrite (get_search_nonempty (QString q2) q2 st (Query_toString_orEmpty q2) (Hne q2 N2)).
  rewrite !ofString_trim, N1, N2. cbn [Number.isNaN].
  do 2 f_equal. unfold Mongo.find_or.
  apply filter_ext. intros d. cbn [existsb app].
  by rewrite (matches_lower d "subject" _ _ E), (matches_lower d "location" _ _ E).
Qed.

Lemma get_search_ignores_case_witness :
  get_search (QString " MATH") Seed.store = get_search (QString "math ") Seed.store.
Proof. apply (get_search_ignores_case " MATH" "math " Seed.store); reflexivity. Defined.

End SearchMore.

(** ** [POST /orders]: further properties *)

Section OrdersMore.

(** X4. A request changes the store only when it is answered 201, and then by
    appending to the orders the very document of the response, stamped with
    the clock and a new identifier; the lessons are never touched (no
    capacity is checked or decremented). *)
Theorem post_orders_effect (req_body : gmap string Json) (now : Z) (st : Store) :
  lessons (snd (post_orders req_body now st)) = lessons st /\
  ((status (fst (post_orders req_body now st)) <> 201 /\
    snd (post_orders req_body now st) = st) \/
   (status (fst (post_orders req_body now st)) = 201 /\
    exists d, body (fst (post_orders req_body now st)) = DocBody d /\
              orders (snd (post_orders req_body now st)) = orders st ++ [d] /\
              d !! "createdAt" = Some (VDate now) /\
              d !! "_id" = Some (VObjectId (nextId st)))).
Proof.
  destruct (post_orders_cases req_body) as [[res [Hs H]]|[l [_ H]]]; rewrite H; simpl.
  - split; [done|]. by left.
  - split; [done|]. right. split; [done|]. eexists. split; [done|]. split; [done|].
    rewrite lookup_insert_eq. split; [|done].
    rewrite lookup_insert_ne by done. unfold orderDoc.
    destruct (req_body !! "name"), (req_body !! "phone");
      rewrite ?lookup_insert_ne by done; by rewrite lookup_singleton_eq.
Qed.

Lemma check_items_message (l : list Json) (res : Response) :
  check_items l = Ok (Some res) ->
  res = fail 400 "Invalid lessonId" \/ res = fail 400 "Invalid quantity".
Proof.
  intros E. apply check_items_spec in E.
  destruct (specItems l) as [e|] eqn:Es; [|discriminate].
  injection E as ->. clear -Es.
  induction l as [|it rest IH]; simpl in Es; [discriminate|].
  destruct (negb (specLessonId _)); [injection Es as <-; by left|].
  destruct (negb (Js.isPositiveInteger _)); [injection Es as <-; by right|auto].
Qed.

(** X5. The answers of the handler: 201 with a document, 400 with one of five
    messages, or 500 with the one message of the [catch] branch. *)
Theorem post_orders_answers (req_body : gmap string Json) (now : Z) (st : Store) :
  (status (fst (post_orders req_body now st)) = 201 /\
   exists d, body (fst (post_orders req_body now st)) = DocBody d) \/
  (exists e, fst (post_orders req_body now st) = fail 400 e /\
             e ∈ ["Invalid name"; "Invalid phone"; "No items in order";
                  "Invalid lessonId"; "Invalid quantity"]%string) \/
  fst (post_orders req_body now st) = fail 500 "Failed to create order".
Proof.
  unfold post_orders, post_orders_try.
  destruct (orElse (negb (Js.truthy (req_body !! "name"))) _) as [[|]|e]; simpl;
    [right; left; eexists; split; [done|set_solver] | | by right; right].
  destruct (orElse (negb (Js.truthy (req_body !! "phone"))) _) as [[|]|e]; simpl;
    [right; left; eexists; split; [done|set_solver] | | by right; right].
  destruct (req_body !! "items") as [[| | | |l|]|]; simpl;
    try (right; left; eexists; split; [done|set_solver]).
  destruct (length l =? 0)%nat; simpl;
    [right; left; eexists; split; [done|set_solver]|].
  destruct (check_items l) as [[res|]|e] eqn:E; simpl.
  - right; left. destruct (check_items_message l res E) as [-> | ->];
      eexists; (split; [done|set_solver]).
  - left. split; [done|]. by eexists.
  - by right; right.
Qed.

Lemma check_items_valid (l : list Json) : check_items l = Ok None -> Forall validItem l.
Proof.
  induction l as [|it rest IH]; simpl; [constructor|].
  destruct (Js.getProp it "lessonId") as [v|e] eqn:Ev; simpl; [|discriminate].
  apply getProp_field in Ev as ->.
  destruct (Js.truthy (field it "lessonId")) eqn:Et; simpl; [|discriminate].
  destruct (ObjectId.createFromHexString _) as [oid|e] eqn:Eo; simpl; [|discriminate].
  destruct (Js.getProp it "quantity") as [q|e] eqn:Eq; simpl; [|discriminate].
  apply getProp_field in Eq as ->.
  destruct (Js.isPositiveInteger (field it "quantity")) eqn:Ep; simpl; [|discriminate].
  intros H. constructor; [|by apply IH].
  unfold validItem.
  destruct (field it "lessonId") as [[| | |s| |]|]; try discriminate.
  destruct (field it "quantity") as [[| |x| | |]|]; try discriminate.
  exists s, x. simpl in Eo, Ep.
  destruct (ObjectId.isHex24 s); [|discriminate].
  apply andb_prop in Ep as [Hi Hl]. apply negb_true_iff in Hl. done.
Qed.

Lemma check_passes (test : string -> bool) (v : option Json) :
  orElse (negb (Js.truthy v)) (s ← Js.ToStringU v; Ok (negb (test s))) = Ok false ->
  exists j s, v = Some j /\ Js.truthy (Some j) = true /\ Js.ToString j = Ok s /\ test s = true.
Proof.
  destruct v as [j|]; [|discriminate].
  destruct (Js.truthy (Some j)) eqn:Et; simpl; [|discriminate].
  unfold Js.ToStringU. destruct (Js.ToString j) as [s|e] eqn:Es; simpl; [|discriminate].
  intros [= H]. apply negb_false_iff in H. exists j, s. repeat split; done.
Qed.

(** When a request is answered 201, the document it stores is a valid order. *)
Lemma post_orders_stores_valid (req_body : gmap string Json) (now : Z) (st : Store) (d : Doc) :
  fst (post_orders req_body now st) = {| status := 201; body := DocBody d |} ->
  validOrder d.
Proof.
  unfold post_orders, post_orders_try.
  destruct (orElse (negb (Js.truthy (req_body !! "name"))) _) as [[|]|e] eqn:En;
    simpl; try discriminate.
  destruct (orElse (negb (Js.truthy (req_body !! "phone"))) _) as [[|]|e] eqn:Ep;
    simpl; try discriminate.
  apply check_passes in En as [name [sn [En [Tn [Sn Pn]]]]].
  apply check_passes in Ep as [phone [sp [Ep [Tp [Sp Pp]]]]].
  rewrite En, Ep.
  destruct (req_body !! "items") as [[| | | |l|]|]; simpl; try discriminate.
  destruct (length l =? 0)%nat eqn:El; simpl; [discriminate|].
  destruct (check_items l) as [[res|]|e] eqn:E; simpl; try discriminate.
  - intros H. apply check_items_status in E. rewrite H in E. discriminate.
  - intros [= <-]. unfold validOrder, passes, orderDoc.
    repeat split.
    + exists name, sn. rewrite lookup_insert_ne, lookup_insert_eq by done. done.
    + exists phone, sp. rewrite !lookup_insert_ne, lookup_insert_eq by done. done.
    + exists l. rewrite !lookup_insert_ne, lookup_insert_eq by done.
      split; [done|]. split; [|by apply check_items_valid].
      intros ->. discriminate.
    + exists now. rewrite !lookup_insert_ne by done. by rewrite lookup_singleton_eq.
    + exists (nextId st). by rewrite lookup_insert_eq.
Qed.

(** X6. The validity of the stored orders is an invariant of the handler. *)
Theorem post_orders_keeps_orders_valid (req_body : gmap string Json) (now : Z) (st : Store) :
  Forall validOrder (orders st) ->
  Forall validOrder (orders (snd (post_orders req_body now st))).
Proof.
  intros Hst.
  destruct (post_orders_cases req_body) as [[res [_ H]]|[l [_ H]]]; rewrite H; [done|].
  simpl. apply Forall_app. split; [done|]. constructor; [|constructor].
  apply (post_orders_stores_valid req_body now st). by rewrite H.
Qed.

Lemma post_orders_keeps_orders_valid_witness :
  Forall validOrder (orders (snd (post_orders oneSeat 10 Seed.store))).
Proof. apply (post_orders_keeps_orders_valid oneSeat 10 Seed.store). constructor. Defined.

End OrdersMore.

(** ** [PUT /lessons/:id]: further properties *)

Section UpdateMore.

Lemma set_has_no_id (req_body : gmap string Json) :
  (VJson <$> pick req_body) !! "_id" = None.
Proof. rewrite lookup_fmap, pick_lookup. reflexivity. Qed.

Lemma hasId_same_id (v : Value) (d d' : Doc) :
  d !! "_id" = d' !! "_id" -> Mongo.hasId v d = Mongo.hasId v d'.
Proof. unfold Mongo.hasId. by intros ->. Qed.

Lemma union_same_id (set d : Doc) : set !! "_id" = None -> (set ∪ d) !! "_id" = d !! "_id".
Proof. intros H. rewrite lookup_union, H. by destruct (d !! "_id"). Qed.

Lemma union_twice (set d : Doc) : set ∪ (set ∪ d) = set ∪ d.
Proof. by rewrite (assoc_L (∪)), (idemp_L (∪)). Qed.

Lemma hasId_somewhere (v : Value) (coll : list Doc) :
  (exists d, d ∈ coll /\ Mongo.hasId v d = true) \/
  (forall d, d ∈ coll -> Mongo.hasId v d = false).
Proof.
  induction coll as [|d r [[d' [Hin H]]|IH]].
  - right. by intros d Hd%elem_of_nil.
  - left. exists d'. split; [by apply list_elem_of_further|done].
  - destruct (Mongo.hasId v d) eqn:E.
    + left. exists d. split; [apply list_elem_of_here|done].
    + right. intros d' [->|Hd]%elem_of_cons; auto.
Qed.

(** An update that is run again finds the same document and leaves it as it
    is. *)
Lemma findOneAndUpdate_again (v : Value) (set : Doc) (coll : list Doc) :
  set !! "_id" = None ->
  Mongo.findOneAndUpdate v set (snd (Mongo.findOneAndUpdate v set coll))
  = Mongo.findOneAndUpdate v set coll.
Proof.
  intros Hset. induction coll as [|d r IH]; simpl; [done|].
  destruct (Mongo.hasId v d) eqn:E; simpl.
  - rewrite (hasId_same_id v _ d (union_same_id set d Hset)), E.
    by rewrite union_twice.
  - destruct (Mongo.findOneAndUpdate v set r) as [res r'] eqn:Er. simpl in *.
    by rewrite E, IH.
Qed.

Lemma findOneAndUpdate_None (v : Value) (set : Doc) (coll ls : list Doc) :
  Mongo.findOneAndUpdate v set coll = (None, ls) ->
  ls = coll /\ forall d, d ∈ coll -> Mongo.hasId v d = false.
Proof.
  intros E. destruct (hasId_somewhere v coll) as [H|H].
  - destruct (findOneAndUpdate_some v set coll H) as [i [old [_ [_ [_ E']]]]].
    rewrite E' in E. discriminate.
  - rewrite (findOneAndUpdate_none v set coll H) in E. by injection E as <-.
Qed.

(** The outcome of a request, in either version and whatever the fate of the
    driver calls: a 400 or a 404 that leaves the store as it is, a 500 when
    a call is rejected, or a 200 that replaces one lesson [old], at its
    position [i], by [old] with the allow-listed fields of the body. *)
Lemma put_outcomes_with (fallback : bool) (link : nat -> Link) (id : string)
      (req_body : gmap string Json) (st : Store) :
  (exists code e, put_version_with fallback link id req_body st = (fail code e, st) /\
                  (code = 400 \/ code = 404 \/
                   (code = 500 /\ e = "Failed to update lesson"%string /\
                    exists n, link n = Down))) \/
  (exists i old, lessons st !! i = Some old /\
     put_version_with fallback link id req_body st =
       ({| status := 200; body := DocBody ((VJson <$> pick req_body) ∪ old) |},
        withLessons st (<[i := (VJson <$> pick req_body) ∪ old]> (lessons st)))).
Proof.
  assert (forall n, link n = Down ->
            500 = 400 \/ 500 = 404 \/
            (500 = 500 /\ "Failed to update lesson"%string = "Failed to update lesson"%string /\
             exists n, link n = Down)) as Hdown by (intros n Hn; right; right; eauto).
  destruct fallback; unfold put_version_with;
    unfold put_lessons_id_with, put_lessons_id_fallback_with, put_lessons_id_try,
      put_lessons_id_fallback_try, Mongo.call.
  - destruct (ObjectId.new id) as [oid|e];
      [|left; exists 400, "Invalid id"%string; auto].
    destruct (size (pick req_body) =? 0)%nat;
      [left; exists 400, "No valid fields to update"%string; auto|].
    destruct (link 0) eqn:L0; cbn [mbind Exc_bind];
      [|left; exists 500, "Failed to update lesson"%string; eauto].
    destruct (hasId_somewhere (VObjectId oid) (lessons st)) as [H|H].
    + destruct (findOneAndUpdate_some _ (VJson <$> pick req_body) _ H)
        as [i [old [Hl [_ [_ E]]]]].
      right. exists i, old. split; [done|]. by rewrite E.
    + rewrite (findOneAndUpdate_none _ _ _ H).
      destruct (link 1) eqn:L1; cbn [mbind Exc_bind];
        [|left; exists 500, "Failed to update lesson"%string; eauto].
      destruct (hasId_somewhere (VJson (JStr id)) (lessons st)) as [H'|H'].
      * destruct (findOneAndUpdate_some _ (VJson <$> pick req_body) _ H')
          as [i [old [Hl [_ [_ E]]]]].
        right. exists i, old. split; [done|]. by rewrite E.
      * rewrite (findOneAndUpdate_none _ _ _ H'), withLessons_same.
        left. exists 404, "Lesson not found"%string. auto.
  - destruct (ObjectId.new id) as [oid|e];
      [|left; exists 400, "Invalid id"%string; auto].
    destruct (size (pick req_body) =? 0)%nat;
      [left; exists 400, "No valid fields to update"%string; auto|].
    destruct (link 0) eqn:L0; cbn [mbind Exc_bind];
      [|left; exists 500, "Failed to update lesson"%string; eauto].
    destruct (hasId_somewhere (VObjectId oid) (lessons st)) as [H|H].
    + destruct (findOneAndUpdate_some _ (VJson <$> pick req_body) _ H)
        as [i [old [Hl [_ [_ E]]]]].
      right. exists i, old. split; [done|]. by rewrite E.
    + rewrite (findOneAndUpdate_none _ _ _ H), withLessons_same.
      left. exists 404, "Lesson not found"%string. auto.
Qed.

Lemma put_version_up (fallback : bool) :
  put_version fallback = put_version_with fallback up.
Proof. by destruct fallback. Qed.

(** On a store that answers: a 400 or a 404 that leaves the store as it is,
    or a 200 that replaces one lesson. *)
Lemma put_outcomes (fallback : bool) (id : string) (req_body : gmap string Json) (st : Store) :
  (exists code e, put_version fallback id req_body st = (fail code e, st) /\
                  (code = 400 \/ code = 404)) \/
  (exists i old, lessons st !! i = Some old /\
     put_version fallback id req_body st =
       ({| status := 200; body := DocBody ((VJson <$> pick req_body) ∪ old) |},
        withLessons st (<[i := (VJson <$> pick req_body) ∪ old]> (lessons st)))).
Proof.
  rewrite put_version_up.
  destruct (put_outcomes_with fallback up id req_body st)
    as [[code [e [E [Hc|[Hc|[_ [_ [n Hn]]]]]]]]|H]; [left..| |by right].
  - exists code, e. auto.
  - exists code, e. auto.
  - discriminate Hn.
Qed.

(** X7. Frame of an update, in either version and for every request: the orders
    and the identifier generator are untouched, no lesson is added or
    removed, and in every lesson every field outside the allow-list, the
    identifier among them, keeps its value. *)
Theorem put_lessons_id_frame (fallback : bool) (id : string)
        (req_body : gmap string Json) (st : Store) :
  let st' := snd (put_version fallback id req_body st) in
  orders st' = orders st /\ nextId st' = nextId st /\
  length (lessons st') = length (lessons st) /\
  forall (j : nat) (k : string), k ∉ allowed ->
    (lessons st' !! j) ≫= (fun d : Doc => d !! k) = (lessons st !! j) ≫= (fun d : Doc => d !! k).
Proof.
  destruct (put_outcomes fallback id req_body st) as [[c [e [-> _]]]|[i [old [Hl ->]]]];
    simpl; [done|].
  split; [done|]. split; [done|]. split; [apply length_insert|].
  intros j k Hk. destruct (decide (j = i)) as [->|Hne].
  - rewrite list_lookup_insert_eq by (by eapply lookup_lt_Some). rewrite Hl. simpl.
    rewrite updated_lookup. by rewrite decide_False by (by intros [? _]).
  - by rewrite list_lookup_insert_ne.
Qed.

(** X8. Whatever the fate of the driver calls, an update answers 200, 400, 404
    or 500.  The 500 is that of the [catch] branch,
    ["Failed to update lesson"]; it is the answer when the identifier is
    valid, the body names an allow-listed field and the first driver call is
    rejected.  With 400 or 404 the store is the same, and in every case at
    most one lesson differs afterwards. *)
Theorem put_lessons_id_changes_one (fallback : bool) (link : nat -> Link) (id : string)
        (req_body : gmap string Json) (st : Store) :
  let r := put_version_with fallback link id req_body st in
  status (fst r) ∈ [200; 400; 404; 500] /\
  (status (fst r) = 500 -> fst r = fail 500 "Failed to update lesson") /\
  (forall oid, ObjectId.new id = Ok oid ->
     (exists k, k ∈ allowed /\ is_Some (req_body !! k)) ->
     link 0 = Down -> fst r = fail 500 "Failed to update lesson") /\
  (status (fst r) = 400 \/ status (fst r) = 404 -> snd r = st) /\
  exists i, forall j, j <> i -> lessons (snd r) !! j = lessons st !! j.
Proof.
  cbv zeta. split; [|split; [|split; [|split]]].
  - destruct (put_outcomes_with fallback link id req_body st)
      as [[c [e [-> Hc]]]|[i [old [Hl ->]]]]; simpl; [|set_solver].
    destruct Hc as [-> | [-> | [-> _]]]; set_solver.
  - destruct (put_outcomes_with fallback link id req_body st)
      as [[c [e [-> Hc]]]|[i [old [Hl ->]]]]; simpl; [|discriminate].
    by destruct Hc as [-> | [-> | [-> [-> Hn]]]].
  - intros oid Hid Hk Hdown.
    destruct fallback; unfold put_version_with;
      unfold put_lessons_id_with, put_lessons_id_fallback_with, put_lessons_id_try,
        put_lessons_id_fallback_try, Mongo.call;
      by rewrite Hid, (pick_size_pos req_body Hk), Hdown.
  - destruct (put_outcomes_with fallback link id req_body st)
      as [[c [e [-> Hc]]]|[i [old [Hl ->]]]]; simpl; [done|].
    by intros [?|?].
  - destruct (put_outcomes_with fallback link id req_body st)
      as [[c [e [-> Hc]]]|[i [old [Hl ->]]]]; simpl; [by exists 0|].
    exists i. intros j Hj. by rewrite list_lookup_insert_ne.
Qed.

(** X9. An update is idempotent: sent again to the store it produced, the same
    request gets the same answer and leaves that store as it is. *)
Theorem put_lessons_id_idempotent (fallback : bool) (id : string)
        (req_body : gmap string Json) (st : Store) :
  put_version fallback id req_body (snd (put_version fallback id req_body st))
  = put_version fallback id req_body st.
Proof.
  pose proof (set_has_no_id req_body) as Hset.
  destruct fallback; unfold put_version; unfold_put.
  - destruct (ObjectId.new id) as [oid|e]; simpl; [|done].
    destruct (size (pick req_body) =? 0)%nat; simpl; [done|].
    pose proof (findOneAndUpdate_again (VObjectId oid) _ (lessons st) Hset) as A1.
    destruct (Mongo.findOneAndUpdate (VObjectId oid) _ (lessons st)) as [[d|] l1] eqn:E1;
      simpl in A1.
    { simpl. by rewrite A1. }
    apply findOneAndUpdate_None in E1 as [-> Hno].
    pose proof (findOneAndUpdate_again (VJson (JStr id)) _ (lessons st) Hset) as A2.
    destruct (Mongo.findOneAndUpdate (VJson (JStr id)) _ (lessons st)) as [res l2] eqn:E2.
    simpl in A2.
    assert (Mongo.findOneAndUpdate (VObjectId oid) (VJson <$> pick req_body) l2 = (None, l2))
      as A3.
    { apply findOneAndUpdate_none. intros d' Hd'.
      destruct res as [d|].
      - destruct (hasId_somewhere (VJson (JStr id)) (lessons st)) as [H|H];
          [|rewrite (findOneAndUpdate_none _ _ _ H) in E2; discriminate].
        destruct (findOneAndUpdate_some _ (VJson <$> pick req_body) _ H)
          as [i [old [Hl [_ [_ E]]]]].
        rewrite E in E2. injection E2 as _ <-.
        apply list_elem_of_lookup in Hd' as [j Hj].
        destruct (decide (j = i)) as [->|Hne].
        + rewrite list_lookup_insert_eq in Hj by (by eapply lookup_lt_Some).
          injection Hj as <-.
          rewrite (hasId_same_id _ _ old (union_same_id _ old Hset)).
          apply Hno. by eapply list_elem_of_lookup_2.
        + rewrite list_lookup_insert_ne in Hj by done.
          apply Hno. by eapply list_elem_of_lookup_2.
      - apply findOneAndUpdate_None in E2 as [-> _]. by apply Hno. }
    destruct res; simpl; by rewrite A3, A2.
  - destruct (ObjectId.new id) as [oid|e]; simpl; [|done].
    destruct (size (pick req_body) =? 0)%nat; simpl; [done|].
    pose proof (findOneAndUpdate_again (VObjectId oid) _ (lessons st) Hset) as A1.
    destruct (Mongo.findOneAndUpdate (VObjectId oid) _ (lessons st)) as [[d|] l1] eqn:E1;
      simpl in A1; simpl; by rewrite A1.
Qed.

(** X10. On a store whose lessons are all identified by an [ObjectId], the retry
    by string of the second version never finds anything: both versions
    answer alike and leave the same store. *)
Theorem put_versions_agree (id : string) (req_body : gmap string Json) (st : Store) :
  typedIds (lessons st) ->
  put_lessons_id_fallback id req_body st = put_lessons_id id req_body st.
Proof.
  intros Ht. unfold_put.
  destruct (ObjectId.new id) as [oid|e]; [|done].
  destruct (size (pick req_body) =? 0)%nat; [done|].
  destruct (Mongo.findOneAndUpdate (VObjectId oid) _ (lessons st)) as [[d|] l1] eqn:E1; [done|].
  apply findOneAndUpdate_None in E1 as [-> _]. cbn [mbind Exc_bind].
  rewrite findOneAndUpdate_none; [done|].
  intros d Hd. destruct (Ht d Hd) as [o Ho]. unfold Mongo.hasId. by rewrite Ho.
Qed.

Lemma seed_typedIds : typedIds (lessons Seed.store).
Proof.
  intros d Hd%list_elem_of_In.
  assert (forallb (fun d : Doc => match d !! "_id" with Some (VObjectId _) => true | _ => false end)
                  (lessons Seed.store) = true) as H by (vm_compute; reflexivity).
  rewrite forallb_forall in H. specialize (H d Hd).
  destruct (d !! "_id") as [[| o |]|]; try discriminate. by exists o.
Qed.

Lemma put_versions_agree_witness :
  put_lessons_id_fallback "000000000000000000000001" threeSpaces Seed.store
  = put_lessons_id "000000000000000000000001" threeSpaces Seed.store.
Proof. apply (put_versions_agree _ threeSpaces Seed.store). apply seed_typedIds. Defined.

End UpdateMore.

(** ** An update followed by a search *)

Section UpdateThenSearch.
Import JsString.

Lemma append_assoc (a b c : string) : (a +:+ b) +:+ c = a +:+ b +:+ c.
Proof. induction a as [|x a IH]; [done|]. rewrite !app_cons. by rewrite IH. Qed.

Lemma append_nil_r (a : string) : a +:+ EmptyString = a.
Proof. induction a as [|x a IH]; [done|]. rewrite app_cons. by rewrite IH. Qed.

Lemma lower_app (a b : string) : lower (a +:+ b) = lower a +:+ lower b.
Proof. induction a as [|x a IH]; [done|]. rewrite !app_cons. simpl. by rewrite IH, app_cons. Qed.

Lemma trimStart_suffix (s : string) : exists pre, s = pre +:+ trimStart s.
Proof.
  induction s as [|c r [pre IH]]; [by exists EmptyString|]. simpl.
  destruct (isWhiteSpace c).
  - exists (String c pre). rewrite app_cons. by rewrite <- IH.
  - by exists EmptyString.
Qed.

Lemma trimEnd_prefix (s : string) : exists post, s = trimEnd s +:+ post.
Proof.
  induction s as [|c r [post IH]]; [by exists EmptyString|]. simpl.
  destruct (isWhiteSpace c && isEmpty (trimEnd r)).
  - by exists (String c r).
  - exists post. rewrite app_cons. by rewrite <- IH.
Qed.

(** The trimmed text is a part of the text. *)
Lemma trim_within (s : string) : exists pre post, s = pre +:+ trim s +:+ post.
Proof.
  destruct (trimStart_suffix s) as [pre H1].
  destruct (trimEnd_prefix (trimStart s)) as [post H2].
  exists pre, post. unfold trim. by rewrite <- H2.
Qed.

(** X11. Read your write: when an update that sets the subject to a text with a
    visible character is answered 200, the returned lesson is in the
    collection that [GET /lessons] lists, and a search for that subject
    returns it. *)
Theorem put_then_search (fallback : bool) (id : string) (req_body : gmap string Json)
        (st : Store) (s : string) :
  status (fst (put_version fallback id req_body st)) = 200 ->
  req_body !! "subject" = Some (JStr s) ->
  trim s <> EmptyString ->
  exists (d : Doc) (results : list Doc),
    body (fst (put_version fallback id req_body st)) = DocBody d /\
    d !! "subject" = Some (VJson (JStr s)) /\
    get_lessons (snd (put_version fallback id req_body st))
      = {| status := 200; body := DocsBody (lessons (snd (put_version fallback id req_body st))) |} /\
    d ∈ lessons (snd (put_version fallback id req_body st)) /\
    get_search (QString s) (snd (put_version fallback id req_body st))
      = {| status := 200; body := DocsBody results |} /\
    d ∈ results.
Proof.
  intros Hs Hsub Ht.
  destruct (put_outcomes fallback id req_body st)
    as [[c [e [E Hc]]]|[i [old [Hl E]]]]; rewrite E in *; simpl in *.
  { destruct Hc as [-> | ->]; discriminate. }
  set (d := (VJson <$> pick req_body) ∪ old).
  assert (d !! "subject" = Some (VJson (JStr s))) as Hd.
  { unfold d. rewrite updated_lookup, Hsub.
    rewrite decide_True; [done|]. split; [|by eexists].
    apply list_elem_of_In. simpl. tauto. }
  assert (d ∈ <[i := d]> (lessons st)) as Hin.
  { apply (list_elem_of_lookup_2 _ i). apply list_lookup_insert_eq. by eapply lookup_lt_Some. }
  eexists d, _. split; [done|]. split; [done|]. split; [done|]. split; [done|].
  split; [by apply (get_search_nonempty (QString s) s _ (Query_toString_orEmpty s))|].
  apply find_or_clauses. split; [done|]. left.
  exists s. split; [by left|]. simpl.
  destruct (trim_within s) as [pre [post H]].
  exists (lower pre), (lower post). rewrite H at 1. by rewrite !lower_app.
Qed.

Lemma put_then_search_witness :
  exists (d : Doc) (results : list Doc),
    body (fst (put_version false "000000000000000000000001"
                 {[ "subject" := JStr " Physics " ]} Seed.store)) = DocBody d /\
    d !! "subject" = Some (VJson (JStr " Physics ")) /\
    get_lessons (snd (put_version false "000000000000000000000001"
                        {[ "subject" := JStr " Physics " ]} Seed.store))
      = {| status := 200;
           body := DocsBody (lessons (snd (put_version false "000000000000000000000001"
                                             {[ "subject" := JStr " Physics " ]} Seed.store))) |} /\
    d ∈ lessons (snd (put_version false "000000000000000000000001"
                        {[ "subject" := JStr " Physics " ]} Seed.store)) /\
    get_search (QString " Physics ")
               (snd (put_version false "000000000000000000000001"
                       {[ "subject" := JStr " Physics " ]} Seed.store))
      = {| status := 200; body := DocsBody results |} /\
    d ∈ results.
Proof.
  apply (put_then_search false "000000000000000000000001"
           {[ "subject" := JStr " Physics " ]} Seed.store " Physics ").
  - vm_compute. reflexivity.
  - reflexivity.
  - discriminate.
Defined.

End UpdateThenSearch.

(** ** The seeding script *)

Section SeedMore.

Lemma insertMany_length (ds : list (gmap string Json)) (next : ObjectId) :
  length (fst (Seed.insertMany ds next)) = length ds /\
  snd (Seed.insertMany ds next) = (next + N.of_nat (length ds))%N.
Proof.
  revert next. induction ds as [|d r IH]; intros next; simpl; [split; [done|lia]|].
  destruct (IH (next + 1)%N) as [Hl Hn].
  destruct (Seed.insertMany r (next + 1)%N) as [r' next']. simpl in *. split; lia.
Qed.

(** The identifiers handed out are the next ones of the generator, in order. *)
Lemma insertMany_ids (ds : list (gmap string Json)) (next : ObjectId) :
  map (fun d : Doc => d !! "_id") (fst (Seed.insertMany ds next))
  = map (fun i => Some (VObjectId (next + N.of_nat i)%N)) (seq 0 (length ds)).
Proof.
  revert next. induction ds as [|d r IH]; intros next; [done|]. simpl.
  specialize (IH (next + 1)%N).
  destruct (Seed.insertMany r (next + 1)%N) as [r' next']. simpl in *.
  rewrite lookup_insert_eq, IH, N.add_0_r. f_equal.
  rewrite <- seq_shift, map_map. apply map_ext. intros i. do 2 f_equal. lia.
Qed.

(** The other fields are those of the documents given. *)
Lemma insertMany_fields (ds : list (gmap string Json)) (next : ObjectId) (k : string) :
  k <> "_id"%string ->
  map (fun d : Doc => d !! k) (fst (Seed.insertMany ds next))
  = map (fun d : gmap string Json => VJson <$> d !! k) ds.
Proof.
  intros Hk. revert next. induction ds as [|d r IH]; intros next; [done|]. simpl.
  specialize (IH (next + 1)%N).
  destruct (Seed.insertMany r (next + 1)%N) as [r' next']. simpl in *.
  by rewrite lookup_insert_ne, lookup_fmap, IH.
Qed.

(** X12. Whatever the store held, after the script has run the lesson collection
    is the ten documents of the script, in order, each with five spaces and
    with an [ObjectId] of its own; the orders are untouched. *)
Theorem seed_run_lessons (st : Store) :
  orders (Seed.run st) = orders st /\
  length (lessons (Seed.run st)) = 10 /\
  (forall k, k <> "_id"%string ->
     map (fun d : Doc => d !! k) (lessons (Seed.run st))
     = map (fun d : gmap string Json => VJson <$> d !! k) Seed.docs) /\
  map (fun d : Doc => d !! "spaces") (lessons (Seed.run st))
  = replicate 10 (Some (VJson (JNum (Finite 5 0)))) /\
  typedIds (lessons (Seed.run st)) /\
  NoDup (map (fun d : Doc => d !! "_id") (lessons (Seed.run st))).
Proof.
  unfold Seed.run.
  pose proof (insertMany_length Seed.docs (nextId st)) as [Hlen _].
  pose proof (insertMany_ids Seed.docs (nextId st)) as Hids.
  pose proof (fun k => insertMany_fields Seed.docs (nextId st) k) as Hf.
  destruct (Seed.insertMany Seed.docs (nextId st)) as [ls next]. cbn [fst snd] in *.
  cbn [lessons orders].
  split; [done|]. split; [by rewrite Hlen|]. split; [done|].
  split; [rewrite Hf by done; vm_compute; reflexivity|]. split.
  - intros d Hd. apply list_elem_of_lookup in Hd as [i Hi].
    assert (map (fun d : Doc => d !! "_id") ls !! i = Some (d !! "_id")) as H.
    { by rewrite list_lookup_fmap, Hi. }
    rewrite Hids, list_lookup_fmap in H.
    destruct (seq 0 (length Seed.docs) !! i) as [j|]; [|discriminate]. simpl in H.
    injection H as H. by eexists.
  - rewrite Hids.
    assert (Inj eq eq (fun i : nat => Some (VObjectId (nextId st + N.of_nat i)%N))) as Hinj.
    { intros i j [= H]. lia. }
    apply (NoDup_fmap_2 _). apply NoDup_ListNoDup, seq_NoDup.
Qed.

End SeedMore.

(** ** [GET /health/db] *)

Section Health.

(** X13. The counts reported follow the handlers: no update changes them, a
    rejected order changes none, and an accepted order raises the order
    count by one. *)
Theorem health_db_counts (DB_NAME : string) (st : Store) :
  (forall fallback id req_body,
      get_health_db DB_NAME (snd (put_version fallback id req_body st))
      = get_health_db DB_NAME st) /\
  (forall req_body now,
      let r := post_orders req_body now st in
      lessonsCount (snd (get_health_db DB_NAME (snd r)))
      = lessonsCount (snd (get_health_db DB_NAME st)) /\
      ordersCount (snd (get_health_db DB_NAME (snd r)))
      = ordersCount (snd (get_health_db DB_NAME st))
        + (if decide (status (fst r) = 201) then 1 else 0)).
Proof.
  split.
  - intros fallback id req_body. unfold get_health_db.
    destruct (put_outcomes fallback id req_body st) as [[c [e [-> _]]]|[i [old [_ ->]]]];
      simpl; [done|]. by rewrite length_insert.
  - intros req_body now r. unfold get_health_db, r. simpl.
    destruct (post_orders_cases req_body) as [[res [Hs H]]|[l [_ H]]]; rewrite H; simpl.
    + rewrite decide_False by done. lia.
    + rewrite length_app. simpl. lia.
Qed.

End Health.

(** ** [GET /images/:fileName] *)

Section Images.
Import JsString.

Lemma segments_not_nil (p : string) : Path.segments p <> [].
Proof.
  induction p as [|c r IH]; simpl; [done|].
  destruct (Path.isSlash c); [done|]. by destruct (Path.segments r).
Qed.

Lemma segments_app (a b : string) :
  Path.segments (a +:+ "/" +:+ b) = Path.segments a ++ Path.segments b.
Proof.
  induction a as [|c r IH]; [reflexivity|].
  rewrite app_cons. simpl. rewrite IH.
  destruct (Path.isSlash c); [done|].
  pose proof (segments_not_nil r). by destruct (Path.segments r).
Qed.

Lemma segments_slashFree (n : string) : slashFree n -> Path.segments n = [n].
Proof.
  unfold slashFree. induction n as [|c r IH]; simpl; [done|].
  intros [Hc Hr]%andb_prop. apply negb_true_iff in Hc. by rewrite Hc, IH.
Qed.

Lemma segments_all_slashFree (p : string) : Forall slashFree (Path.segments p).
Proof.
  induction p as [|c r IH]; simpl; [by repeat constructor|].
  destruct (Path.isSlash c) eqn:Ec; [by constructor|].
  destruct (Path.segments r) as [|s l]; [repeat constructor; unfold slashFree; simpl; by rewrite Ec|].
  inversion IH; subst. constructor; [|done].
  unfold slashFree in *. simpl. by rewrite Ec.
Qed.

Lemma step_plain (above : bool) (stack : list string) (n : string) :
  plainName n -> Path.step above stack n = n :: stack.
Proof.
  intros [_ [H0 [H1 H2]]]. unfold Path.step.
  apply String.eqb_neq in H0, H1, H2. by rewrite H0, H1, H2.
Qed.

Lemma fold_plain (above : bool) (l acc : list string) :
  Forall plainName l -> fold_left (Path.step above) l acc = rev l ++ acc.
Proof.
  revert acc. induction l as [|n l IH]; intros acc H; [done|].
  inversion H; subst. simpl. rewrite step_plain by done. rewrite IH by done.
  by rewrite <- app_assoc.
Qed.

(** Below the root, the segments kept are file names proper. *)
Lemma fold_keeps_plain (l acc : list string) :
  Forall slashFree l -> Forall plainName acc ->
  Forall plainName (fold_left (Path.step false) l acc).
Proof.
  revert acc. induction l as [|n l IH]; intros acc Hl Hacc; [done|].
  inversion Hl; subst. simpl. apply IH; [done|]. unfold Path.step.
  destruct (String.eqb n "") eqn:E0; [done|].
  destruct (String.eqb n ".") eqn:E1; [done|]. simpl.
  destruct (String.eqb n "..") eqn:E2.
  - destruct acc as [|top below]; [done|]. inversion Hacc; subst.
    by destruct (String.eqb top "..").
  - constructor; [|done]. apply String.eqb_neq in E0, E1, E2. by repeat split.
Qed.

Lemma resolve_plain (p : string) : Forall plainName (Path.resolve false p).
Proof.
  unfold Path.resolve. apply Forall_rev, fold_keeps_plain; [|constructor].
  apply segments_all_slashFree.
Qed.

Lemma join_snoc (l : list string) (n : string) :
  l <> [] -> join "/" (l ++ [n]) = join "/" l +:+ "/" +:+ n.
Proof.
  induction l as [|s l IH]; [done|]. intros _.
  destruct l as [|s' l]; [reflexivity|].
  change (join "/" ((s :: s' :: l) ++ [n])) with (s +:+ "/" +:+ join "/" ((s' :: l) ++ [n])).
  rewrite IH by done.
  change (join "/" (s :: s' :: l)) with (s +:+ "/" +:+ join "/" (s' :: l)).
  by rewrite !append_assoc.
Qed.

Lemma join_segments (l : list string) :
  l <> [] -> Forall slashFree l -> Path.segments (join "/" l) = l.
Proof.
  induction l as [|s l IH]; [done|]. intros _ H. inversion H; subst.
  destruct l as [|s' l]; [by apply segments_slashFree|].
  change (join "/" (s :: s' :: l)) with (s +:+ "/" +:+ join "/" (s' :: l)).
  rewrite segments_app, IH by done. by rewrite segments_slashFree.
Qed.

Lemma plain_slashFree (l : list string) : Forall plainName l -> Forall slashFree l.
Proof. intros H. eapply Forall_impl; [done|]. by intros n [? _]. Qed.

(** The segments of a rendered absolute path, as the walk leaves them. *)
Lemma fold_rendered (l : list string) :
  Forall plainName l ->
  fold_left (Path.step false) (Path.segments ("/" +:+ join "/" l)) [] = rev l.
Proof.
  intros H. destruct l as [|s l]; [reflexivity|].
  change ("/" +:+ join "/" (s :: l)) with (EmptyString +:+ "/" +:+ join "/" (s :: l)).
  rewrite segments_app, join_segments by (done || by apply plain_slashFree).
  simpl Path.segments. rewrite fold_left_app. simpl fold_left at 2.
  change (Path.step false [] "") with (@nil string).
  rewrite fold_plain by done. by rewrite app_nil_r.
Qed.

Lemma endsWithSlash_plain (n : string) :
  slashFree n -> Path.endsWithSlash n = false.
Proof.
  unfold slashFree. induction n as [|c r IH]; [done|]. simpl.
  intros [Hc Hr]%andb_prop. apply negb_true_iff in Hc.
  destruct r; [done|]. by apply IH.
Qed.

Lemma endsWithSlash_app (x n : string) :
  n <> EmptyString -> Path.endsWithSlash (x +:+ n) = Path.endsWithSlash n.
Proof.
  intros Hn. induction x as [|c r IH]; [done|].
  rewrite app_cons. simpl. rewrite IH.
  destruct (r +:+ n) eqn:E; [|done].
  destruct r; [by rewrite app_nil in E|discriminate].
Qed.

Lemma join_not_empty (l : list string) (n : string) :
  n <> EmptyString -> isEmpty (join "/" (l ++ [n])) = false.
Proof.
  intros Hn. destruct l as [|s l]; simpl; [by destruct n|].
  destruct (l ++ [n]) eqn:E; [by destruct l|].
  destruct s; [reflexivity|reflexivity].
Qed.

(** The walk over a path that ends in [/x]. *)
Lemma normalize_absolute (p x : string) (l : list string) (n : string) :
  Path.isAbsolute p = true -> slashFree n -> n <> EmptyString ->
  fold_left (Path.step false) (Path.segments (p +:+ "/" +:+ x)) [] = rev (l ++ [n]) ->
  Path.endsWithSlash x = false -> x <> EmptyString ->
  Path.normalize (p +:+ "/" +:+ x) = "/" +:+ join "/" (l ++ [n]).
Proof.
  intros Hp Hn Hne Hfold Hx Hxe. unfold Path.normalize.
  destruct p as [|c p]; [discriminate|]. rewrite app_cons.
  cbn [isEmpty Path.isAbsolute]. simpl in Hp. rewrite Hp.
  rewrite <- app_cons.
  replace (Path.endsWithSlash (String c p +:+ "/" +:+ x)) with false.
  2:{ rewrite <- append_assoc, endsWithSlash_app by done. by rewrite Hx. }
  unfold Path.normalizeString, Path.resolve. simpl negb.
  rewrite Hfold, rev_involutive, join_not_empty by done.
  by rewrite append_nil_r.
Qed.

(** [path.join(p, n)] for an absolute [p] and a file name proper. *)
Lemma join_plain (p n : string) :
  Path.isAbsolute p = true -> plainName n ->
  Path.join [p; n] = "/" +:+ join "/" (Path.resolve false p ++ [n]).
Proof.
  intros Hp Hn. pose proof Hn as [Hs [H0 _]]. unfold Path.join.
  destruct p as [|c p]; [discriminate|]. destruct n as [|c' n]; [done|].
  cbn [List.filter isEmpty negb]. cbn [join].
  apply normalize_absolute; try done.
  - unfold Path.resolve. rewrite segments_app, fold_left_app, segments_slashFree by done.
    simpl fold_left at 1. rewrite step_plain by done.
    by rewrite rev_app_distr, rev_involutive.
  - by apply endsWithSlash_plain.
Qed.

Lemma resolve_rendered (l : list string) :
  Forall plainName l -> Path.resolve false ("/" +:+ join "/" l) = l.
Proof. intros H. unfold Path.resolve. by rewrite fold_rendered, rev_involutive. Qed.

Lemma imagesDir_rendered (dirname : string) :
  Path.isAbsolute dirname = true ->
  Path.join [dirname; "images"%string]
  = "/" +:+ join "/" (Path.resolve false dirname ++ ["images"%string]).
Proof. intros H. apply join_plain; [done|]. by repeat split. Qed.

(** X14. A file name proper (no slash, not [.] and not [..]) is looked up and sent
    from inside the image directory: the path is the directory, a slash and
    the name. *)
Theorem get_images_plain (dirname : string) (access : string -> bool) (fileName : string) :
  Path.isAbsolute dirname = true -> plainName fileName ->
  get_images dirname access fileName
  = if access (Path.join [dirname; "images"%string] +:+ "/" +:+ fileName)
    then SendFile (Path.join [dirname; "images"%string] +:+ "/" +:+ fileName)
    else Answer (fail 404 "Image not found").
Proof.
  intros Hd Hn. unfold get_images.
  assert (Path.join [Path.join [dirname; "images"%string]; fileName]
          = Path.join [dirname; "images"%string] +:+ "/" +:+ fileName) as ->; [|done].
  rewrite imagesDir_rendered by done.
  assert (Forall plainName (Path.resolve false dirname ++ ["images"%string])) as Hl.
  { apply Forall_app. split; [apply resolve_plain|]. by repeat constructor. }
  rewrite join_plain by done. rewrite resolve_rendered by done.
  rewrite join_snoc by (by destruct (Path.resolve false dirname)).
  reflexivity.
Qed.

Lemma get_images_plain_witness :
  get_images "/var/app/current" (fun p => String.eqb p "/var/app/current/images/math.png") "math.png"
  = if String.eqb (Path.join ["/var/app/current"; "images"]%string +:+ "/" +:+ "math.png")
                  "/var/app/current/images/math.png"
    then SendFile (Path.join ["/var/app/current"; "images"]%string +:+ "/" +:+ "math.png")
    else Answer (fail 404 "Image not found").
Proof.
  apply (get_images_plain "/var/app/current"
           (fun p => String.eqb p "/var/app/current/images/math.png") "math.png").
  - reflexivity.
  - by repeat split.
Defined.

(** X15. The image directory does not confine the lookup: a name that begins with
    [../] (a slash reaches the handler URL-encoded) is looked up and sent from
    the directory of the server itself, next to the image directory. *)
Theorem get_images_parent (dirname : string) (access : string -> bool) (n : string) :
  Path.isAbsolute dirname = true -> plainName n ->
  get_images dirname access ("../" +:+ n)
  = if access (Path.join [dirname; n])
    then SendFile (Path.join [dirname; n])
    else Answer (fail 404 "Image not found").
Proof.
  intros Hd Hn. pose proof Hn as [Hs [H0 _]]. unfold get_images.
  assert (Path.join [Path.join [dirname; "images"%string]; "../" +:+ n]
          = Path.join [dirname; n]) as ->; [|done].
  rewrite (join_plain dirname n) by done.
  rewrite imagesDir_rendered by done.
  assert (Forall plainName (Path.resolve false dirname ++ ["images"%string])) as Hl.
  { apply Forall_app. split; [apply resolve_plain|]. by repeat constructor. }
  unfold Path.join.
  replace (List.filter (fun a => negb (isEmpty a))
             ["/" +:+ join "/" (Path.resolve false dirname ++ ["images"%string]); "../" +:+ n])
    with ["/" +:+ join "/" (Path.resolve false dirname ++ ["images"%string]); "../" +:+ n]
    by reflexivity.
  change (join "/" ["/" +:+ join "/" (Path.resolve false dirname ++ ["images"%string]);
                    "../" +:+ n])
    with (("/" +:+ join "/" (Path.resolve false dirname ++ ["images"%string]))
            +:+ "/" +:+ (".." +:+ "/" +:+ n)).
  apply normalize_absolute; try done.
  - rewrite !segments_app, !fold_left_app, fold_rendered by done.
    rewrite (segments_slashFree n) by done. simpl Path.segments.
    rewrite rev_app_distr. simpl.
    rewrite step_plain by done. by rewrite rev_app_distr.
  - change (".." +:+ "/" +:+ n) with ("../" +:+ n).
    rewrite endsWithSlash_app by done. by apply endsWithSlash_plain.
Qed.

Lemma get_images_parent_witness :
  get_images "/var/app/current" (fun p => String.eqb p "/var/app/current/server.js")
             ("../" +:+ "server.js")
  = if String.eqb (Path.join ["/var/app/current"; "server.js"]%string) "/var/app/current/server.js"
    then SendFile (Path.join ["/var/app/current"; "server.js"]%string)
    else Answer (fail 404 "Image not found").
Proof.
  apply (get_images_parent "/var/app/current"
           (fun p => String.eqb p "/var/app/current/server.js") "server.js").
  - reflexivity.
  - by repeat split.
Defined.

End Images.
